(** * gym-gridverse: the environment composition engine and the gym wrapper

    A shallow embedding of
    - [gym_gridverse/envs/factory.py]  ([create_env], the environment
      builders, [STRING_TO_GYM_CONSTRUCTOR], [env_from_descr]),
    - [gym_gridverse/gym.py]           ([outer_space_to_gym_space],
      [GymEnvironment]),
    - [gym_gridverse/observation.py]   ([Observation.__eq__]).

    Python objects are records, mutation is explicit state passing, raised
    exceptions are the left injection of a sum, and the process-wide random
    generator used by reset functions and stochastic rules is an explicit
    [Rng] value threaded through every call that may draw from it. *)

From Stdlib Require Import ZArith List String Bool Lia.
From stdpp Require Import gmap strings list fin_maps pretty.

(** ** Exceptions *)

Inductive Exception : Type :=
| ValueError (msg : string)
| ValidationError (msg : string)
| SequencingError (msg : string).

(** A call either raises or returns. *)
Definition result (A : Type) : Type := (Exception + A)%type.

(** ** Plain data used by the factory *)

(** [geometry.Shape], as in [Shape(7, 7)]. *)
Record Shape : Type := mkShape { height : Z; width : Z }.

(** The grid-object classes named in [factory.py]. *)
Inductive GridObjectType : Type :=
| Wall | Floor | Goal | Door | Key | MovingObstacle.

(** The members of [Color] named in the sources. *)
Inductive Color : Type := NONE | RED | YELLOW.

(** [copy.deepcopy]: values of the embedding are immutable, a copy is the
    value itself. *)
Definition deepcopy {A : Type} (x : A) : A := x.

(** ** Numeric arrays and gym spaces *)

(** A [numpy.ndarray] of an integer dtype ([int8] to [int64], [uint8] to
    [uint64]): its shape and its items in row-major order, each item the
    integer it stands for. Arrays of floating-point numbers are not
    modelled. *)
Record ndarray : Type := mk_ndarray { arr_shape : list nat; arr_data : list Z }.

(** [numpy.zeros_like]: an array of the same shape, every item zero. *)
Definition zeros_like (v : ndarray) : ndarray :=
  mk_ndarray (arr_shape v) (map (fun _ => 0%Z) (arr_data v)).

(** The [dtype] the wrapper asks for. *)
Inductive DType : Type := np_int.

(** [np.int] is Python's [int], which numpy takes for its default integer:
    a signed integer of 64 bits on Linux and macOS. *)
Definition np_int_bits : Z := 64.

(** One item under [astype(np.int)]: an integer that fits is kept, any
    other (an [uint64] from [2**63] on) wraps around, as the conversion
    between integer types of C does. *)
Definition wrap_np_int (x : Z) : Z :=
  ((x + 2 ^ (np_int_bits - 1)) mod 2 ^ np_int_bits - 2 ^ (np_int_bits - 1))%Z.

(** [v.astype(dtype)] *)
Definition astype (dtype : DType) (v : ndarray) : ndarray :=
  match dtype with
  | np_int => mk_ndarray (arr_shape v) (map wrap_np_int (arr_data v))
  end.

(** A [gym.spaces.Box] with array bounds, as the object holds them. *)
Record Box : Type := mkBox { low : ndarray; high : ndarray; dtype : DType }.

(** [gym.spaces.Box(low=low, high=high, dtype=dtype)]: the constructor keeps
    [low.astype(dtype)] and [high.astype(dtype)]. *)
Definition gym_spaces_Box (low high : ndarray) (dtype : DType) : Box :=
  mkBox (astype dtype low) (astype dtype high) dtype.

(** [gym.spaces.Discrete(n)]: the integers [0 .. n - 1]. *)
Record Discrete : Type := mkDiscrete { n : nat }.

(** [Discrete.contains] *)
Definition Discrete_contains (space : Discrete) (x : Z) : bool :=
  bool_decide (0 <= x < Z.of_nat (n space))%Z.

(** A Python [dict] literal keeps its items in the order written; looking a
    key up finds the item stored under it. *)
Fixpoint dict_get {V : Type} (d : list (string * V)) (key : string)
  : option V :=
  match d with
  | [] => None
  | (k, v) :: rest => if decide (k = key) then Some v else dict_get rest key
  end.

(** [dict.keys()] *)
Definition dict_keys {V : Type} (d : list (string * V)) : list string :=
  map fst d.

(** ** The domain: what the engine is generic in

    The types and constants the sources import from modules that the engine
    only passes around. *)
Class Domain : Type := {
  (** state of the random generator that reset functions and stochastic
      rules draw from *)
  Rng : Type;
  (** [gym_gridverse.action.Action], an enumeration *)
  Action : Type;
  Action_eq_dec :: EqDecision Action;
  (** [list(Action)]: the members in declaration order *)
  list_Action : list Action;
  (** [Grid], its [shape] property, and [Agent] *)
  Grid : Type;
  Agent : Type;
  shape : Grid -> Shape;
  (** what an observation function returns *)
  Observation : Type;
  (** the representation classes of [gym_gridverse.representations] *)
  StateRepresentation : Type;
  ObservationRepresentation : Type;
  (** the numbers rewards are made of, with Python's [0] and [+] on them *)
  R : Type;
  R0 : R;
  Radd : R -> R -> R
}.

Section Engine.

Context {D : Domain}.

(** [State(grid, agent)] *)
Record State : Type := mkState { grid : Grid; agent : Agent }.

(** *** Signatures of the rule functions

    A Python transition function changes the state object it is given; here
    it returns the changed state. A reset function and a transition function
    take the random generator and return it with the state, so that a rule
    that draws no number returns the generator as it got it. *)

Definition ResetFunction : Type := Rng -> State * Rng.
Definition TransitionFunction : Type := State -> Action -> Rng -> State * Rng.
Definition RewardFunction : Type := State -> Action -> State -> R.
Definition TerminatingFunction : Type := State -> Action -> State -> bool.

(** *** Space contracts, as the factory constructs them *)

(** [StateSpace(grid_shape, objects, colors)] *)
Record StateSpace : Type := mkStateSpace {
  grid_shape : Shape;
  object_types : list GridObjectType;
  colors : list Color
}.

(** [ObservationSpace(grid_shape, objects, colors)] *)
Record ObservationSpace : Type := mkObservationSpace {
  obs_grid_shape : Shape;
  obs_object_types : list GridObjectType;
  obs_colors : list Color
}.

(** [ActionSpace(actions)] *)
Record ActionSpace : Type := mkActionSpace { actions : list Action }.

(** [DomainSpace(state_space, action_space, observation_space)] *)
Record DomainSpace : Type := mkDomainSpace {
  state_space : StateSpace;
  action_space : ActionSpace;
  observation_space : ObservationSpace
}.

(** Modelled from the spec: [ActionSpace.num_actions], absent from the
    sources; the external action range is [[0, num_actions)] and every
    integer of it stands for one member of the action list. *)
Definition num_actions (space : ActionSpace) : nat := length (actions space).

(** Modelled from the spec: [ActionSpace.contains], the validation
    predicate of the action space. *)
Definition contains (space : ActionSpace) (action : Action) : bool :=
  bool_decide (action ∈ actions space).

(** Modelled from the spec: [ActionSpace.int_to_action], absent from the
    sources. An integer of the range is mapped to the member of the action
    list at that position (the enumeration order); an integer outside the
    range is rejected with a validation error naming the legal range. *)
Definition int_to_action (space : ActionSpace) (action : Z)
  : result Action :=
  let out_of_range :=
    ValidationError ("action " +:+ pretty action +:+ " is outside [0, "
                     +:+ pretty (num_actions space) +:+ ")") in
  if bool_decide (0 <= action)%Z
  then match actions space !! Z.to_nat action with
       | Some a => inr a
       | None => inl out_of_range
       end
  else inl out_of_range.

(** *** The rule combinators *)

(** Modelled from the spec: [transition_functions.chain], absent from the
    sources. The rules run in list order, each on the state left by the
    one before it and on the original action. *)
Fixpoint chain (state : State) (action : Action)
    (transition_functions : list TransitionFunction) (rng : Rng)
  : State * Rng :=
  match transition_functions with
  | [] => (state, rng)
  | transition_function :: rest =>
      let '(state', rng') := transition_function state action rng in
      chain state' action rest rng'
  end.

(** Python's [sum(iterable)]: the accumulator starts at [0] and the items
    are added to it from left to right. *)
Definition py_sum (items : list R) : R := fold_left Radd items R0.

(** Python's [any(iterable)]: the first true item ends the loop. *)
Fixpoint py_any (items : list bool) : bool :=
  match items with
  | [] => false
  | item :: rest => if item then true else py_any rest
  end.

(** *** The inner environment *)

(** Modelled from the spec: [gridworld.GridWorld], the [InnerEnv] the
    factory returns, absent from the sources. It owns the domain space, the
    reset function, the four composed functions and the current state;
    [state = None] is the [Uninitialized] state of the spec. The observation
    computed by the last [reset] or [step] stays readable. *)
Record InnerEnv : Type := mkInnerEnv {
  domain_space : DomainSpace;
  reset_function : ResetFunction;
  transition_function : State -> Action -> Rng -> State * Rng;
  observation_function : State -> Observation;
  reward_function : State -> Action -> State -> R;
  termination_function : State -> Action -> State -> bool;
  state : option State;
  observation : option Observation
}.

(** Modelled from the spec: the constructor [GridWorld(domain_space, reset,
    transition, observation, reward, termination)] that [create_env] calls;
    a new environment is [Uninitialized]. *)
Definition GridWorld (domain_space : DomainSpace) (reset : ResetFunction)
    (transition : State -> Action -> Rng -> State * Rng)
    (observation : State -> Observation)
    (reward : State -> Action -> State -> R)
    (termination : State -> Action -> State -> bool) : InnerEnv :=
  mkInnerEnv domain_space reset transition observation reward termination
             None None.

(** Modelled from the spec: the step algorithm of the composition engine
    (section 4.1), on a state and an action: copy the state, run the
    transition on the copy, then compute the reward, the done flag and the
    observation on [(state, action, next_state)]. *)
Definition functional_step (env : InnerEnv) (state : State)
    (action : Action) (rng : Rng) : (State * R * bool * Observation) * Rng :=
  let next_state := deepcopy state in
  let '(next_state, rng') := transition_function env next_state action rng in
  let reward := reward_function env state action next_state in
  let done := termination_function env state action next_state in
  let observation := observation_function env next_state in
  ((next_state, reward, done, observation), rng').

(** Modelled from the spec: [InnerEnv.reset] (section 4.2): the state the
    reset function returns becomes the current state, and the observation of
    it is computed and returned. That the state lies in the state space is
    the reset function's contract (section 6). *)
Definition InnerEnv_reset (env : InnerEnv) (rng : Rng)
  : Observation * InnerEnv * Rng :=
  let '(state, rng') := reset_function env rng in
  let observation := observation_function env state in
  (observation,
   mkInnerEnv (domain_space env) (reset_function env)
              (transition_function env) (observation_function env)
              (reward_function env) (termination_function env)
              (Some state) (Some observation),
   rng').

(** Modelled from the spec: [InnerEnv.step] (section 4.2): a sequencing
    error before the first reset, a validation error on an action outside
    the action space; otherwise the engine runs and the next state replaces
    the current one. An error leaves the environment as it was. *)
Definition InnerEnv_step (env : InnerEnv) (action : Action) (rng : Rng)
  : result (R * bool) * InnerEnv * Rng :=
  match state env with
  | None => (inl (SequencingError "reset required before step"), env, rng)
  | Some state =>
      if contains (action_space (domain_space env)) action then
        let '((next_state, reward, done, observation), rng') :=
          functional_step env state action rng in
        (inr (reward, done),
         mkInnerEnv (domain_space env) (reset_function env)
                    (transition_function env) (observation_function env)
                    (reward_function env) (termination_function env)
                    (Some next_state) (Some observation),
         rng')
      else (inl (ValidationError "action outside the action space"),
            env, rng)
  end.

End Engine.

(** ** The collaborators

    The functions that [factory.py] and [gym.py] import from modules outside
    the sources at hand: reset functions, rules, the observation function
    and the representation registries. A reset function or a transition rule
    may draw from the random generator. *)
Class Collaborators {D : Domain} : Type := {
  (** [observation_functions.minigrid_observation(state, observation_space)] *)
  minigrid_observation : State -> ObservationSpace -> Observation;
  (** [reset_functions.reset_empty(height, width, random_agent_pos)] *)
  reset_empty : Z -> Z -> bool -> ResetFunction;
  (** [reset_functions.reset_rooms(height, width, layout)] *)
  reset_rooms : Z -> Z -> Z * Z -> ResetFunction;
  (** [reset_functions.reset_dynamic_obstacles(height, width, num_obstacles,
      random_agent_pos)] *)
  reset_dynamic_obstacles : Z -> Z -> Z -> bool -> ResetFunction;
  (** [reset_functions.reset_keydoor(height, width)] *)
  reset_keydoor : Z -> Z -> ResetFunction;
  (** [transition_functions] *)
  update_agent : TransitionFunction;
  step_moving_obstacles : TransitionFunction;
  actuate_door : TransitionFunction;
  pickup_mechanics : TransitionFunction;
  (** [reward_functions] *)
  reward_functions_reach_goal : RewardFunction;
  reward_functions_bump_moving_obstacle : RewardFunction;
  reward_functions_bump_into_wall : RewardFunction;
  (** [terminating_functions] *)
  terminating_functions_reach_goal : TerminatingFunction;
  terminating_functions_bump_moving_obstacle : TerminatingFunction;
  terminating_functions_bump_into_wall : TerminatingFunction;
  (** [create_state_representation(name, state_space)] and
      [create_observation_representation(name, observation_space)]: the
      lookup by name raises on a name it does not know *)
  create_state_representation :
    string -> StateSpace -> result StateRepresentation;
  create_observation_representation :
    string -> ObservationSpace -> result ObservationRepresentation;
  (** the [space] property of a representation: per named array, the array
      of upper bounds *)
  state_rep_space : StateRepresentation -> gmap string ndarray;
  observation_rep_space : ObservationRepresentation -> gmap string ndarray;
  (** the [convert] method of a representation *)
  convert_state : StateRepresentation -> State -> gmap string ndarray;
  convert_observation :
    ObservationRepresentation -> Observation -> gmap string ndarray
}.

Section Factory.

Context {D : Domain} {ext : Collaborators}.

(** *** [factory.create_env] *)

Definition create_env (domain_space : DomainSpace) (reset : ResetFunction)
    (transition_functions : list TransitionFunction)
    (rewards : list RewardFunction)
    (terminations : list TerminatingFunction) : InnerEnv :=
  (* Transitions are applied in order *)
  let transition := fun state action =>
    chain state action transition_functions in
  let observation := fun state =>
    minigrid_observation state (observation_space domain_space) in
  (* Rewards are additive *)
  let reward := fun state action next_state =>
    py_sum (map (fun r => r state action next_state) rewards) in
  (* Termination is a big or *)
  let termination := fun state action next_state =>
    py_any (map (fun t => t state action next_state) terminations) in
  GridWorld domain_space reset transition observation reward termination.

(** *** The environment builders

    A builder calls the reset function where the source does, so it takes the
    random generator and returns it as that call left it. *)

Definition plain_navigation_task (reset_func : ResetFunction) (rng : Rng)
  : InnerEnv * Rng :=
  let transitions := [update_agent] in
  let rewards := [reward_functions_reach_goal] in
  let terminations := [terminating_functions_reach_goal] in
  (* grid_shape = reset_func().grid.shape *)
  let '(sample, rng') := reset_func rng in
  let grid_shape := shape (grid sample) in
  let objects := [Wall; Floor; Goal] in
  let colors := [NONE] in
  let state_space := mkStateSpace grid_shape objects colors in
  let observation_shape := mkShape 7 7 in
  let observation_space :=
    mkObservationSpace observation_shape objects colors in
  let action_space := mkActionSpace list_Action in
  let domain_space := mkDomainSpace state_space action_space observation_space in
  (create_env domain_space reset_func transitions rewards terminations, rng').

Definition env_dynamic_obstacle (size : Z) (random_pos : bool)
    (num_obstacles : Z) (rng : Rng) : InnerEnv * Rng :=
  (* +2 size to accommodate the walls *)
  let reset_func :=
    reset_dynamic_obstacles (size + 2) (size + 2) num_obstacles random_pos in
  let transitions := [update_agent; step_moving_obstacles] in
  let rewards := [reward_functions_reach_goal;
                  reward_functions_bump_moving_obstacle;
                  reward_functions_bump_into_wall] in
  let terminations := [terminating_functions_reach_goal;
                       terminating_functions_bump_moving_obstacle;
                       terminating_functions_bump_into_wall] in
  let '(sample, rng') := reset_func rng in
  let grid_shape := shape (grid sample) in
  let objects := [Wall; Floor; Goal; MovingObstacle] in
  let colors := [NONE] in
  let state_space := mkStateSpace grid_shape objects colors in
  let observation_space := mkObservationSpace (mkShape 7 7) objects colors in
  let action_space := mkActionSpace list_Action in
  let domain_space := mkDomainSpace state_space action_space observation_space in
  (create_env domain_space reset_func transitions rewards terminations, rng').

Definition env_empty (size : Z) (random_pos : bool) (rng : Rng)
  : InnerEnv * Rng :=
  (* +2 size to accommodate the walls *)
  let reset := reset_empty (size + 2) (size + 2) random_pos in
  plain_navigation_task reset rng.

Definition env_four_room (rng : Rng) : InnerEnv * Rng :=
  let reset := reset_rooms 19 19 (2, 2)%Z in
  plain_navigation_task reset rng.

Definition gym_keydoor_env (size : Z) (rng : Rng) : InnerEnv * Rng :=
  let reset := reset_keydoor (size + 2) (size + 2) in
  let transitions := [update_agent; actuate_door; pickup_mechanics] in
  let rewards := [reward_functions_reach_goal] in
  let terminations := [terminating_functions_reach_goal] in
  let '(sample, rng') := reset rng in
  let grid_shape := shape (grid sample) in
  let objects := [Wall; Floor; Goal; Door; Key] in
  let colors := [NONE; YELLOW] in
  let observation_shape := mkShape 7 7 in
  let state_space := mkStateSpace grid_shape objects colors in
  let observation_space :=
    mkObservationSpace observation_shape objects colors in
  let action_space := mkActionSpace list_Action in
  let domain_space := mkDomainSpace state_space action_space observation_space in
  (create_env domain_space reset transitions rewards terminations, rng').

(** *** The registry *)

Definition STRING_TO_GYM_CONSTRUCTOR
  : list (string * (Rng -> InnerEnv * Rng)) :=
  [ (* Empty rooms *)
    ("Empty-5x5-v0", env_empty 5 false);
    ("Empty-Random-5x5-v0", env_empty 5 true);
    ("Empty-6x6-v0", env_empty 6 false);
    ("Empty-Random-6x6-v0", env_empty 6 true);
    ("Empty-8x8-v0", env_empty 8 false);
    ("Empty-16x16-v0", env_empty 16 false);
    (* 4 rooms *)
    ("FourRooms-v0", env_four_room);
    (* Dynamic obstacle environments *)
    ("Dynamic-Obstacles-5x5-v0", env_dynamic_obstacle 5 false 2);
    ("Dynamic-Obstacles-Random-5x5-v0", env_dynamic_obstacle 5 true 2);
    ("Dynamic-Obstacles-6x6-v0", env_dynamic_obstacle 6 false 3);
    ("Dynamic-Obstacles-Random-6x6-v0", env_dynamic_obstacle 6 true 3);
    ("Dynamic-Obstacles-8x8-v0", env_dynamic_obstacle 8 false 4);
    ("Dynamic-Obstacles-16x16-v0", env_dynamic_obstacle 16 false 8);
    ("KeyDoor-5x5-v0", gym_keydoor_env 5);
    ("KeyDoor-6x6-v0", gym_keydoor_env 6);
    ("KeyDoor-8x8-v0", gym_keydoor_env 8);
    ("KeyDoor-16x16-v0", gym_keydoor_env 16) ].

(** [env_from_descr]: the [KeyError] of the lookup is turned into a
    [ValueError] whose message is the f-string of the source. *)
Definition env_from_descr (descr : string) (rng : Rng)
  : result InnerEnv * Rng :=
  match dict_get STRING_TO_GYM_CONSTRUCTOR descr with
  | Some constructor =>
      let '(env, rng') := constructor rng in (inr env, rng')
  | None =>
      (inl (ValueError
              ("No environment named " +:+ descr +:+ " is implemented")),
       rng)
  end.

(** [manual_control.py] lists the names for its help text:
    [list(STRING_TO_GYM_CONSTRUCTOR.keys())]. *)
Definition available_descriptions : list string :=
  dict_keys STRING_TO_GYM_CONSTRUCTOR.

(** ** [gym.py] *)

(** [outer_space_to_gym_space]: one [Box] per named array, from zero to the
    array, both as [np.int]. *)
Definition outer_space_to_gym_space (space : gmap string ndarray)
  : gmap string Box :=
  (fun v => gym_spaces_Box (zeros_like v) v np_int) <$> space.

(** Modelled from the spec: [outer_env.OuterEnv], absent from the sources:
    one inner environment and at most one representation of each kind. *)
Record OuterEnv : Type := mkOuterEnv {
  inner_env : InnerEnv;
  state_rep : option StateRepresentation;
  observation_rep : option ObservationRepresentation
}.

(** Modelled from the spec: [OuterEnv.action_space], the action space of the
    inner environment. *)
Definition OuterEnv_action_space (env : OuterEnv) : ActionSpace :=
  action_space (domain_space (inner_env env)).

(** What a caller reads from an outer environment: the raw object when no
    representation is installed, named arrays otherwise. *)
Inductive Projected (Raw : Type) : Type :=
| RawObject (obj : Raw)
| Arrays (arrays : gmap string ndarray).
Arguments RawObject {Raw} obj.
Arguments Arrays {Raw} arrays.

(** Modelled from the spec: [OuterEnv.observation] (section 4.4): the
    observation of the inner environment through the installed
    representation. *)
Definition OuterEnv_observation (env : OuterEnv)
  : result (Projected Observation) :=
  match observation (inner_env env) with
  | None => inl (SequencingError "reset required before observation")
  | Some obs =>
      match observation_rep env with
      | None => inr (RawObject obs)
      | Some rep => inr (Arrays (convert_observation rep obs))
      end
  end.

(** Modelled from the spec: [OuterEnv.reset] (section 4.4) delegates to the
    inner environment. *)
Definition OuterEnv_reset (env : OuterEnv) (rng : Rng) : OuterEnv * Rng :=
  let '(_, inner', rng') := InnerEnv_reset (inner_env env) rng in
  (mkOuterEnv inner' (state_rep env) (observation_rep env), rng').

(** Modelled from the spec: [OuterEnv.step] (section 4.4) delegates to the
    inner environment and returns [(reward, done)]. *)
Definition OuterEnv_step (env : OuterEnv) (action : Action) (rng : Rng)
  : result (R * bool) * OuterEnv * Rng :=
  let '(r, inner', rng') := InnerEnv_step (inner_env env) action rng in
  (r, mkOuterEnv inner' (state_rep env) (observation_rep env), rng').

(** [outer_env_constructor] of the registration loop: the inner environment
    with no state representation and the observation representation named
    "default". *)
Definition outer_env_constructor (constructor : Rng -> InnerEnv * Rng)
    (rng : Rng) : result OuterEnv * Rng :=
  let '(env, rng') := constructor rng in
  let state_repr := None in
  match create_observation_representation
          "default" (observation_space (domain_space env)) with
  | inl exn => (inl exn, rng')
  | inr observation_repr =>
      (inr (mkOuterEnv env state_repr (Some observation_repr)), rng')
  end.

(** [GymEnvironment]. The attributes [state_space], [observation_space] and
    [action_space] of the Python object are [gym_state_space],
    [gym_observation_space] and [gym_action_space] here (the names without
    prefix are the fields of [DomainSpace]); an attribute not assigned yet
    is [None], as [gym.Env] declares them. *)
Record GymEnvironment : Type := mkGymEnvironment {
  outer_env : OuterEnv;
  gym_state_space : option (gmap string Box);
  gym_observation_space : option (gmap string Box);
  gym_action_space : option Discrete
}.

(** [GymEnvironment.set_state_representation]: the registry may raise, and
    then nothing has been assigned. *)
Definition set_state_representation (name : string) (self : GymEnvironment)
  : result unit * GymEnvironment :=
  match create_state_representation name
          (state_space (domain_space (inner_env (outer_env self)))) with
  | inl exn => (inl exn, self)
  | inr rep =>
      (* self.outer_env.state_rep = ... *)
      let outer_env' :=
        mkOuterEnv (inner_env (outer_env self)) (Some rep)
                   (observation_rep (outer_env self)) in
      (* self.state_space = outer_space_to_gym_space(...state_rep.space) *)
      (inr tt,
       mkGymEnvironment outer_env'
         (Some (outer_space_to_gym_space (state_rep_space rep)))
         (gym_observation_space self) (gym_action_space self))
  end.

(** [GymEnvironment.set_observation_representation] *)
Definition set_observation_representation (name : string)
    (self : GymEnvironment) : result unit * GymEnvironment :=
  match create_observation_representation name
          (observation_space (domain_space (inner_env (outer_env self)))) with
  | inl exn => (inl exn, self)
  | inr rep =>
      let outer_env' :=
        mkOuterEnv (inner_env (outer_env self)) (state_rep (outer_env self))
                   (Some rep) in
      (inr tt,
       mkGymEnvironment outer_env' (gym_state_space self)
         (Some (outer_space_to_gym_space (observation_rep_space rep)))
         (gym_action_space self))
  end.

(** [GymEnvironment.__init__(constructor, state_rep_override,
    obs_rep_override)]; the constructor may sample from the reset function,
    and it may raise. *)
Definition GymEnvironment_init (constructor : Rng -> result OuterEnv * Rng)
    (state_rep_override obs_rep_override : option string) (rng : Rng)
  : result GymEnvironment * Rng :=
  let '(r0, rng') := constructor rng in
  match r0 with
  | inl exn => (inl exn, rng')
  | inr outer_env0 =>
      let self := mkGymEnvironment outer_env0 None None None in
      let '(r1, self) :=
        match state_rep_override with
        | Some name => set_state_representation name self
        | None =>
            (inr tt,
             mkGymEnvironment (outer_env self)
               (match state_rep (outer_env self) with
                | Some rep =>
                    Some (outer_space_to_gym_space (state_rep_space rep))
                | None => None
                end)
               (gym_observation_space self) (gym_action_space self))
        end in
      match r1 with
      | inl exn => (inl exn, rng')
      | inr _ =>
          let '(r2, self) :=
            match obs_rep_override with
            | Some name => set_observation_representation name self
            | None =>
                (inr tt,
                 mkGymEnvironment (outer_env self) (gym_state_space self)
                   (match observation_rep (outer_env self) with
                    | Some rep =>
                        Some (outer_space_to_gym_space
                                (observation_rep_space rep))
                    | None => None
                    end)
                   (gym_action_space self))
            end in
          match r2 with
          | inl exn => (inl exn, rng')
          | inr _ =>
              (* self.action_space = gym.spaces.Discrete(num_actions) *)
              (inr (mkGymEnvironment (outer_env self) (gym_state_space self)
                      (gym_observation_space self)
                      (Some (mkDiscrete
                               (num_actions
                                  (OuterEnv_action_space (outer_env self)))))),
               rng')
          end
      end
  end.

(** [GymEnvironment.from_environment(env)]: the constructor is
    [lambda: env]. *)
Definition from_environment (env : OuterEnv) (rng : Rng)
  : result GymEnvironment * Rng :=
  GymEnvironment_init (fun rng => (inr env, rng)) None None rng.

(** [GymEnvironment.reset]: reset the outer environment, return the
    observation. *)
Definition GymEnvironment_reset (self : GymEnvironment) (rng : Rng)
  : result (Projected Observation) * GymEnvironment * Rng :=
  let '(outer_env', rng') := OuterEnv_reset (outer_env self) rng in
  (OuterEnv_observation outer_env',
   mkGymEnvironment outer_env' (gym_state_space self)
     (gym_observation_space self) (gym_action_space self),
   rng').

(** The last two lines of [GymEnvironment.step]: the step of the outer
    environment on the decoded action, then
    [self.observation, reward, done, {}]. *)
Definition step_action (self : GymEnvironment) (action_ : Action) (rng : Rng)
  : result (Projected Observation * R * bool * gmap string Z)
    * GymEnvironment * Rng :=
  let '(r, outer_env', rng') := OuterEnv_step (outer_env self) action_ rng in
  let self' :=
    mkGymEnvironment outer_env' (gym_state_space self)
      (gym_observation_space self) (gym_action_space self) in
  match r with
  | inl exn => (inl exn, self', rng')
  | inr (reward, done) =>
      match OuterEnv_observation outer_env' with
      | inl exn => (inl exn, self', rng')
      | inr obs => (inr (obs, reward, done, ∅), self', rng')
      end
  end.

(** [GymEnvironment.step(action)]: decode the integer through the action
    space, then step. *)
Definition GymEnvironment_step (self : GymEnvironment) (action : Z)
    (rng : Rng)
  : result (Projected Observation * R * bool * gmap string Z)
    * GymEnvironment * Rng :=
  match int_to_action (OuterEnv_action_space (outer_env self)) action with
  | inl exn => (inl exn, self, rng)
  | inr action_ => step_action self action_ rng
  end.

End Factory.

(** ** [observation.py] *)

Module observation_py.
Section Observation.

(** [info.Grid] and [info.Agent] with their [==], and the values that are
    no [Observation]. *)
Context {Grid Agent Other : Type}.
Variable Grid_eq : Grid -> Grid -> bool.
Variable Agent_eq : Agent -> Agent -> bool.

(** [Observation(grid, agent)] *)
Record Observation : Type := mkObservation { grid : Grid; agent : Agent }.

(** A Python value, as [isinstance(other, Observation)] sees it. *)
Inductive PyObject : Type :=
| AnObservation (obs : Observation)
| AnotherObject (obj : Other).

(** What [__eq__] returns: a truth value, or the constant
    [NotImplemented]. *)
Inductive EqResult : Type :=
| Truth (b : bool)
| NotImplemented.

(** [Observation.__eq__]; [and] evaluates its right operand only when the
    left one is true. *)
Definition __eq__ (self : Observation) (other : PyObject) : EqResult :=
  match other with
  | AnObservation other =>
      Truth (if Grid_eq (grid self) (grid other)
             then Agent_eq (agent self) (agent other)
             else false)
  | AnotherObject _ => NotImplemented
  end.

End Observation.
End observation_py.

(** ** The vocabulary of the specification *)

Section Vocabulary.

Context {D : Domain}.

(** The arithmetic sum of a list of numbers, [x1 + (x2 + (... + 0))]. *)
Definition arithmetic_sum (values : list R) : R := foldr Radd R0 values.

(** Addition on rewards is the addition of numbers: associative, with [0]
    as its unit. Integers, rationals and reals add this way; floating-point
    numbers do so as long as no sum is rounded. *)
Definition exact_addition : Prop :=
  (forall x y z : R, Radd x (Radd y z) = Radd (Radd x y) z)
  /\ (forall x : R, Radd R0 x = x)
  /\ (forall x : R, Radd x R0 = x).

(** Two environment records run the same rules: they differ at most in the
    current state and the observation kept with it. An environment built by
    the factory keeps its rules through every [reset] and [step]. *)
Definition same_rules (env1 env2 : InnerEnv) : Prop :=
  domain_space env1 = domain_space env2
  /\ reset_function env1 = reset_function env2
  /\ transition_function env1 = transition_function env2
  /\ observation_function env1 = observation_function env2
  /\ reward_function env1 = reward_function env2
  /\ termination_function env1 = termination_function env2.

(** The grid shape of the reset function's states does not depend on the
    sample. *)
Definition constant_grid_shape (reset_func : ResetFunction) : Prop :=
  forall rng1 rng2 : Rng,
    shape (grid (fst (reset_func rng1))) = shape (grid (fst (reset_func rng2))).

(** Every state a later reset of the environment can produce has the grid
    shape of the environment's state space. *)
Definition consistent_with_resets (env : InnerEnv) : Prop :=
  forall rng : Rng,
    shape (grid (fst (reset_function env rng)))
    = grid_shape (state_space (domain_space env)).

(** The builder calls the reset function once: it leaves the random generator
    as one call of the reset function leaves it, the grid shape of the state
    space is the one of the state that call returned, and the environment it
    returns holds that reset function and is not reset yet. *)
Definition shape_from_one_reset (reset_func : ResetFunction)
    (builder : Rng -> InnerEnv * Rng) : Prop :=
  forall rng : Rng,
    snd (builder rng) = snd (reset_func rng)
    /\ grid_shape (state_space (domain_space (fst (builder rng))))
       = shape (grid (fst (reset_func rng)))
    /\ reset_function (fst (builder rng)) = reset_func
    /\ state (fst (builder rng)) = None.

End Vocabulary.

(** ** The rest of [gym.py]: registration, rendering, closing *)

(** [rendering.GridVerseViewer(shape, caption=...)]: a window, known by what
    it was opened with. *)
Record GridVerseViewer : Type := mkViewer {
  viewer_shape : Shape;
  caption : string
}.

(** The attributes [_state_viewer] and [_observation_viewer] of a
    [GymEnvironment]; [__init__] sets both to [None]. *)
Record Viewers : Type := mkViewers {
  _state_viewer : option GridVerseViewer;
  _observation_viewer : option GridVerseViewer
}.

(** How a call of [render] ends: it returns, or [gym.Env.render], called for
    a mode the class does not know, raises [NotImplementedError]. *)
Inductive RenderOutcome : Type := Returned | NotImplementedError.

Section Wrapper.

Context {D : Domain} {ext : Collaborators}.

(** The body of the registration loop, for the items still to come: the
    id is [f'GridVerse-{key}'], [gym.register] gets it with the constructor
    [partial(outer_env_constructor, constructor_)], and the id is appended
    to [env_ids]. The calls of [gym.register] are kept in the order made. *)
Definition register_loop
    (items : list (string * (Rng -> InnerEnv * Rng)))
    (acc : list string * list (string * (Rng -> result OuterEnv * Rng)))
  : list string * list (string * (Rng -> result OuterEnv * Rng)) :=
  fold_left
    (fun acc item =>
       let env_id := "GridVerse-" +:+ fst item in
       (fst acc ++ [env_id],
        snd acc ++ [(env_id, outer_env_constructor (snd item))]))
    items acc.

(** The loop over [factory.STRING_TO_GYM_CONSTRUCTOR.items()]. *)
Definition register_environments
  : list string * list (string * (Rng -> result OuterEnv * Rng)) :=
  register_loop STRING_TO_GYM_CONSTRUCTOR ([], []).

(** [env_ids] once the module is loaded. *)
Definition env_ids : list string := fst register_environments.

(** What a call of [render] or [close] does to the windows, in order. *)
Inductive ViewerEvent : Type :=
| Opened (viewer : GridVerseViewer)
| Slept
| RenderedState (viewer : GridVerseViewer) (state : State)
| RenderedObservation (viewer : GridVerseViewer)
                      (observation : option Observation)
| Closed (viewer : GridVerseViewer).

(** [GymEnvironment.render(mode)] *)
Definition GymEnvironment_render (mode : string) (self : GymEnvironment)
    (viewers : Viewers) : RenderOutcome * Viewers * list ViewerEvent :=
  if bool_decide (mode ∉ ["human"; "human_state"; "human_observation"])
  then (* super().render(mode) *)
    (NotImplementedError, viewers, [])
  else
    match state (inner_env (outer_env self)) with
    | None => (* not reset yet *) (Returned, viewers, [])
    | Some current =>
        let '(viewers, events) :=
          if bool_decide (mode ∈ ["human"; "human_state"]) then
            let '(viewer, opened) :=
              match _state_viewer viewers with
              | None =>
                  let viewer :=
                    mkViewer
                      (grid_shape
                         (state_space
                            (domain_space (inner_env (outer_env self)))))
                      "State" in
                  (viewer, [Opened viewer; Slept])
              | Some viewer => (viewer, [])
              end in
            (mkViewers (Some viewer) (_observation_viewer viewers),
             opened ++ [RenderedState viewer current])
          else (viewers, []) in
        let '(viewers, events) :=
          if bool_decide (mode ∈ ["human"; "human_observation"]) then
            let '(viewer, opened) :=
              match _observation_viewer viewers with
              | None =>
                  let viewer :=
                    mkViewer
                      (obs_grid_shape
                         (observation_space
                            (domain_space (inner_env (outer_env self)))))
                      "Observation" in
                  (viewer, [Opened viewer; Slept])
              | Some viewer => (viewer, [])
              end in
            (mkViewers (_state_viewer viewers) (Some viewer),
             events ++ opened
             ++ [RenderedObservation viewer
                   (observation (inner_env (outer_env self)))])
          else (viewers, events) in
        (Returned, viewers, events)
    end.

(** [GymEnvironment.close()] *)
Definition GymEnvironment_close (viewers : Viewers)
  : Viewers * list ViewerEvent :=
  let '(viewers, events) :=
    match _state_viewer viewers with
    | Some viewer =>
        (mkViewers None (_observation_viewer viewers), [Closed viewer])
    | None => (viewers, [])
    end in
  match _observation_viewer viewers with
  | Some viewer =>
      (mkViewers (_state_viewer viewers) None, events ++ [Closed viewer])
  | None => (viewers, events)
  end.

(** *** Words for the properties of the wrapper *)

(** The advertised spaces are those of the installed representations: a
    space where a representation is installed, [None] where none is. *)
Definition advertised_consistent (self : GymEnvironment) : Prop :=
  gym_state_space self
  = (fun rep => outer_space_to_gym_space (state_rep_space rep))
      <$> state_rep (outer_env self)
  /\ gym_observation_space self
     = (fun rep => outer_space_to_gym_space (observation_rep_space rep))
         <$> observation_rep (outer_env self).

(** Installing the representations of the two optional names, the state
    representation first, as [__init__] does with its overrides. *)
Definition install_overrides
    (state_rep_override obs_rep_override : option string)
    (self : GymEnvironment) : result GymEnvironment :=
  let '(r1, self) :=
    match state_rep_override with
    | Some name => set_state_representation name self
    | None => (inr tt, self)
    end in
  match r1 with
  | inl exn => inl exn
  | inr _ =>
      let '(r2, self) :=
        match obs_rep_override with
        | Some name => set_observation_representation name self
        | None => (inr tt, self)
        end in
      match r2 with
      | inl exn => inl exn
      | inr _ => inr self
      end
  end.

(** What a builder of the factory returns: an environment with the 7 by 7
    observation window and the action list [list(Action)], whose state space
    has the grid shape of the one state the builder drew from the
    environment's own reset function. *)
Definition freshly_built (builder : Rng -> InnerEnv * Rng) : Prop :=
  forall rng : Rng,
    obs_grid_shape (observation_space (domain_space (fst (builder rng))))
    = mkShape 7 7
    /\ action_space (domain_space (fst (builder rng)))
       = mkActionSpace list_Action
    /\ snd (builder rng) = snd (reset_function (fst (builder rng)) rng)
    /\ grid_shape (state_space (domain_space (fst (builder rng))))
       = shape (grid (fst (reset_function (fst (builder rng)) rng))).

(** Episodes of the environments a builder returns end when the goal is
    reached, and for no other reason than the goal, a bump into a moving
    obstacle or a bump into a wall. *)
Definition ends_by_listed_rules (builder : Rng -> InnerEnv * Rng) : Prop :=
  forall (rng : Rng) (s : State) (a : Action) (s' : State),
    (terminating_functions_reach_goal s a s' = true ->
     termination_function (fst (builder rng)) s a s' = true)
    /\ (termination_function (fst (builder rng)) s a s' = true ->
        terminating_functions_reach_goal s a s' = true
        \/ terminating_functions_bump_moving_obstacle s a s' = true
        \/ terminating_functions_bump_into_wall s a s' = true).

End Wrapper.

(** Every item of the array is a signed integer of 64 bits, which
    [astype(np.int)] keeps. *)
Definition fits_np_int (v : ndarray) : Prop :=
  Forall (fun x => (- 2 ^ 63 <= x < 2 ^ 63)%Z) (arr_data v).

(** Every array of the space fits [np.int]. *)
Definition space_fits (space : gmap string ndarray) : Prop :=
  forall name v, space !! name = Some v -> fits_np_int v.

(** Every item of the array is at least 0. *)
Definition nonnegative (v : ndarray) : Prop :=
  Forall (fun x => (0 <= x)%Z) (arr_data v).

(** The box holds a point: its lower bound is below its upper bound, item
    by item. *)
Definition box_inhabited (box : Box) : Prop :=
  Forall2 Z.le (arr_data (low box)) (arr_data (high box)).


(** ** [scripts/manual_control.py] *)

Module manual_control.

(** How [get_user_action] ends: with an action, or with the [EOFError] of
    [input()] when the standard input is at its end (the loop catches
    [ValueError] only). *)
Inductive Outcome (Action : Type) : Type :=
| Chosen (action : Action)
| EOFError.
Arguments Chosen {Action} action.
Arguments EOFError {Action}.

Section Script.

Context {D : Domain}.
(** [int(text)] and [Action(value)]; [None] stands for the [ValueError]
    either raises. *)
Variable int : string -> option Z.
Variable Action_of_value : Z -> option Action.

(** The prompt, [f"Action? (in (0,{len(Action)})): "]. *)
Definition prompt : string :=
  "Action? (in (0," +:+ pretty (length list_Action) +:+ ")): ".

(** [Action(int(input_action))] *)
Definition read_action (input_action : string) : option Action :=
  match int input_action with
  | Some value => Action_of_value value
  | None => None
  end.

(** [get_user_action()], on the lines the standard input still holds: the
    outcome, the lines left unread, and the prompts written. *)
Fixpoint get_user_action (stdin : list string)
  : Outcome Action * list string * list string :=
  match stdin with
  | [] => (EOFError, [], [prompt])
  | input_action :: stdin' =>
      match read_action input_action with
      | Some action => (Chosen action, stdin', [prompt])
      | None =>
          let '(outcome, unread, prompts) := get_user_action stdin' in
          (outcome, unread, prompt :: prompts)
      end
  end.

End Script.
End manual_control.

(** ** [tests/test_state.py]: the helpers that change a state *)

Module test_state.

(** [Position(y, x)] *)
Record Position : Type := mkPosition { y : Z; x : Z }.

(** The grid objects the test file imports. *)
Inductive GridObject : Type :=
| Floor | Wall | Key (color : Color) | NoneGridObject.

(** [Orientation]; the tests name two of its members. *)
Inductive Orientation : Type := N | S.

(** A [Grid], as far as the helpers modelled here read it: its height and
    its width. *)
Record Grid : Type := mkGrid { height : Z; width : Z }.

(** [Agent(position, orientation, obj)] *)
Record Agent : Type := mkAgent {
  position : Position;
  orientation : Orientation;
  obj : GridObject
}.

(** [State(grid, agent)] *)
Record State : Type := mkState { grid : Grid; agent : Agent }.

(** Python's [a % b] on integers: [ZeroDivisionError] ([None]) when [b] is
    zero, otherwise the remainder with the sign of [b]. *)
Definition py_mod (a b : Z) : option Z :=
  if decide (b = 0%Z) then None else Some (a mod b)%Z.

(** [_change_agent_position(state)]: the position moves one step down and
    one to the right, around the edges of the grid. *)
Definition _change_agent_position (state : State) : option State :=
  match py_mod (y (position (agent state)) + 1) (height (grid state)) with
  | None => None
  | Some y' =>
      match py_mod (x (position (agent state)) + 1) (width (grid state)) with
      | None => None
      | Some x' =>
          Some (mkState (grid state)
                  (mkAgent (mkPosition y' x') (orientation (agent state))
                           (obj (agent state))))
      end
  end.

(** [_change_agent_object(state)] *)
Definition _change_agent_object (state : State) : State :=
  mkState (grid state)
    (mkAgent (position (agent state)) (orientation (agent state))
       (match obj (agent state) with
        | NoneGridObject => Key RED
        | _ => NoneGridObject
        end)).

(** The position lies on the grid. *)
Definition on_grid (state : State) : Prop :=
  (0 <= y (position (agent state)) < height (grid state))%Z
  /\ (0 <= x (position (agent state)) < width (grid state))%Z.

End test_state.


(** ** A small concrete domain, to run the definitions on

    The random generator is a counter of the draws made; a grid is its shape;
    the agent is its position on a line; rewards are integers. *)

Module Toy.

Inductive ToyAction : Type := Forward | Backward | Stay.

#[local] Instance ToyAction_eq_dec : EqDecision ToyAction.
Proof. solve_decision. Defined.

Definition domain : Domain := {|
  Rng := nat;
  Action := ToyAction;
  Action_eq_dec := ToyAction_eq_dec;
  list_Action := [Forward; Backward; Stay];
  Grid := Shape;
  Agent := Z;
  shape := fun g => g;
  Observation := Z;
  StateRepresentation := Shape;
  ObservationRepresentation := Shape;
  R := Z;
  R0 := 0%Z;
  Radd := Z.add
|}.

(** Every reset draws once and puts the agent at position 0. *)
Definition reset_at (height width : Z) : @ResetFunction domain :=
  fun rng => (mkState (D := domain) (mkShape height width) 0%Z, S rng).

(** The agent moves along the line. *)
Definition move : @TransitionFunction domain :=
  fun state action rng =>
    (mkState (D := domain) (grid state)
       (match action with
        | Forward => agent state + 1
        | Backward => agent state - 1
        | Stay => agent state
        end)%Z,
     rng).

(** A stochastic rule: it draws once and leaves the state alone. *)
Definition drift : @TransitionFunction domain :=
  fun state action rng => (state, S rng).

(** The goal is position 1. *)
Definition at_goal : @TerminatingFunction domain :=
  fun state action next_state => bool_decide (agent next_state = 1%Z).

Definition goal_reward : @RewardFunction domain :=
  fun state action next_state =>
    if bool_decide (agent next_state = 1%Z) then 1%Z else 0%Z.

(** Leaving the line on the left costs 2. *)
Definition off_line : @TerminatingFunction domain :=
  fun state action next_state => bool_decide (agent next_state < 0)%Z.

Definition off_line_penalty : @RewardFunction domain :=
  fun state action next_state =>
    if bool_decide (agent next_state < 0)%Z then (-2)%Z else 0%Z.

(** Two representations are registered, "default" and "compact"; the bounds
    of both come from the shape of the space. *)
Definition create_representation (name : string) (bound : Shape)
  : result Shape :=
  if decide (name = "default") then inr bound
  else if decide (name = "compact") then inr (mkShape 1 1)
  else inl (ValueError ("unknown representation " +:+ name)).

Definition rep_space (rep : Shape) : gmap string ndarray :=
  {[ "grid" := mk_ndarray [2%nat] [height rep; width rep] ]}.

(** The observation is the agent's position. *)
Definition observe (state : @State domain) (space : ObservationSpace)
  : Z := agent state.

Definition idle : @TransitionFunction domain :=
  fun state action rng => (state, rng).

Definition state_arrays (rep : Shape) (state : @State domain)
  : gmap string ndarray :=
  {[ "agent" := mk_ndarray [1%nat] [agent state] ]}.

Definition observation_arrays (rep : Shape) (obs : Z)
  : gmap string ndarray :=
  {[ "agent" := mk_ndarray [1%nat] [obs] ]}.

Definition collaborators : @Collaborators domain := {|
  minigrid_observation := observe;
  reset_empty := fun height width _ => reset_at height width;
  reset_rooms := fun height width _ => reset_at height width;
  reset_dynamic_obstacles := fun height width _ _ => reset_at height width;
  reset_keydoor := fun height width => reset_at height width;
  update_agent := move;
  step_moving_obstacles := drift;
  actuate_door := idle;
  pickup_mechanics := idle;
  reward_functions_reach_goal := goal_reward;
  reward_functions_bump_moving_obstacle := off_line_penalty;
  reward_functions_bump_into_wall := fun _ _ _ => 0%Z;
  terminating_functions_reach_goal := at_goal;
  terminating_functions_bump_moving_obstacle := off_line;
  terminating_functions_bump_into_wall := fun _ _ _ => false;
  create_state_representation := fun name space =>
    create_representation name (grid_shape space);
  create_observation_representation := fun name space =>
    create_representation name (obs_grid_shape space);
  state_rep_space := rep_space;
  observation_rep_space := rep_space;
  convert_state := state_arrays;
  convert_observation := observation_arrays
|}.

(** A rule set with two rules of each kind, the environment the factory
    makes of it, and that environment after its first reset. *)
Definition spaces : @DomainSpace domain :=
  mkDomainSpace (mkStateSpace (mkShape 7 7) [Wall; Floor; Goal] [NONE])
                (mkActionSpace (D := domain) [Forward; Backward; Stay])
                (mkObservationSpace (mkShape 7 7) [Wall; Floor; Goal] [NONE]).

Definition transitions : list (@TransitionFunction domain) := [move; drift].
Definition rewards : list (@RewardFunction domain) :=
  [goal_reward; off_line_penalty].
Definition terminations : list (@TerminatingFunction domain) :=
  [at_goal; off_line].

Definition start_state : @State domain :=
  mkState (D := domain) (mkShape 7 7) 0%Z.

Definition ready_env : @InnerEnv domain :=
  snd (fst (InnerEnv_reset
              (create_env (ext := collaborators) spaces (reset_at 7 7)
                          transitions rewards terminations) 0%nat)).

(** The same with no transition rule at all. *)
Definition still_env : @InnerEnv domain :=
  snd (fst (InnerEnv_reset
              (create_env (ext := collaborators) spaces (reset_at 7 7)
                          [] rewards terminations) 0%nat)).

(** The empty room of size 5 under the "default" observation
    representation, as [gym.py] registers it. *)
Definition empty_room : @OuterEnv domain :=
  mkOuterEnv (fst (env_empty (ext := collaborators) 5 false 0%nat))
             None (Some (mkShape 7 7)).

(** What [__init__] makes of it. *)
Definition gym_env : @GymEnvironment domain :=
  mkGymEnvironment
    empty_room
    None
    (Some (outer_space_to_gym_space (rep_space (mkShape 7 7))))
    (Some (mkDiscrete 3)).

(** The box advertised for the array "grid" of a 7 by 7 space. *)
Definition grid_box : Box :=
  mkBox (mk_ndarray [2%nat] [0%Z; 0%Z]) (mk_ndarray [2%nat] [7%Z; 7%Z]) np_int.

(** A space with one array of [uint64] whose first bound is [2**63], and
    the space of the same name whose first bound is [-2**63]. *)
Definition wide_space : gmap string ndarray :=
  {[ "x" := mk_ndarray [2%nat] [(2 ^ 63)%Z; 1%Z] ]}.

Definition low_space : gmap string ndarray :=
  {[ "x" := mk_ndarray [2%nat] [(- 2 ^ 63)%Z; 1%Z] ]}.

(** The state after a step backward from the start. *)
Definition left_state : @State domain :=
  mkState (D := domain) (mkShape 7 7) (-1)%Z.

(** The wrapper of the empty room after its first reset, and a wrapper
    that has opened no window yet. *)
Definition gym_ready : @GymEnvironment domain :=
  snd (fst (GymEnvironment_reset (ext := collaborators) gym_env 1%nat)).

Definition no_viewers : Viewers := mkViewers None None.

(** Three builders of the registry over the small domain. *)
Definition four_rooms : nat -> @InnerEnv domain * nat :=
  env_four_room (ext := collaborators).
Definition keydoor8 : nat -> @InnerEnv domain * nat :=
  gym_keydoor_env (ext := collaborators) 8.
Definition obstacles5 : nat -> @InnerEnv domain * nat :=
  env_dynamic_obstacle (ext := collaborators) 5 false 2.

(** The first state of the tests: a grid of 2 by 3, the agent in its corner
    with empty hands. *)
Definition corner_state : test_state.State :=
  test_state.mkState (test_state.mkGrid 2 3)
    (test_state.mkAgent (test_state.mkPosition 0 0) test_state.N
                        test_state.NoneGridObject).


End Toy.

(** * Properties *)

Section Properties.

Context {D : Domain} {ext : Collaborators}.

(** ** Python's [any] and [sum] *)

Lemma py_any_true (items : list bool) :
  py_any items = true <-> true ∈ items.
Proof.
  induction items as [|item rest IH]; simpl.
  - rewrite elem_of_nil. split; [discriminate | tauto].
  - rewrite elem_of_cons. destruct item.
    + split; auto.
    + rewrite IH. split; [auto | intros [Heq | Hin]; [discriminate | exact Hin]].
Qed.

Lemma py_any_map {A : Type} (f : A -> bool) (l : list A) :
  py_any (map f l) = true <-> exists x, x ∈ l /\ f x = true.
Proof.
  induction l as [|y l IH]; simpl.
  - split; [discriminate | intros (x & Hx & _); inversion Hx].
  - destruct (f y) eqn:Hy.
    + split; [intros _; exists y; split; [left | exact Hy] | reflexivity].
    + rewrite IH. split.
      * intros (x & Hx & Hfx). exists x. split; [by right | exact Hfx].
      * intros (x & Hx & Hfx). apply elem_of_cons in Hx as [-> | Hx].
        -- congruence.
        -- exists x. split; assumption.
Qed.

Lemma py_any_nil : py_any [] = false.
Proof. reflexivity. Qed.

(** ** The inner environment *)

Lemma same_rules_refl (env : InnerEnv) : same_rules env env.
Proof. repeat split. Qed.

Lemma same_rules_reset (env0 env : InnerEnv) (rng : Rng) :
  same_rules env env0 -> same_rules (snd (fst (InnerEnv_reset env rng))) env0.
Proof.
  unfold InnerEnv_reset. destruct (reset_function env rng) as [s rng'].
  simpl. auto.
Qed.

Lemma same_rules_step (env0 env : InnerEnv) (action : Action) (rng : Rng) :
  same_rules env env0 ->
  same_rules (snd (fst (InnerEnv_step env action rng))) env0.
Proof.
  intros H. unfold InnerEnv_step, functional_step.
  destruct (state env) as [s|]; [|exact H].
  destruct (contains _ action); [|exact H].
  destruct (transition_function env (deepcopy s) action rng) as [s' rng'].
  exact H.
Qed.

(** A step of an environment that is reset, on an action of its space. *)
Lemma InnerEnv_step_ready (env : InnerEnv) (s : State) (a : Action)
    (rng : Rng) :
  state env = Some s ->
  contains (action_space (domain_space env)) a = true ->
  InnerEnv_step env a rng =
    (inr (reward_function env s a (fst (transition_function env s a rng)),
          termination_function env s a (fst (transition_function env s a rng))),
     mkInnerEnv (domain_space env) (reset_function env)
       (transition_function env) (observation_function env)
       (reward_function env) (termination_function env)
       (Some (fst (transition_function env s a rng)))
       (Some (observation_function env
                (fst (transition_function env s a rng)))),
     snd (transition_function env s a rng)).
Proof.
  intros Hs Ha. unfold InnerEnv_step, functional_step, deepcopy.
  rewrite Hs, Ha. destruct (transition_function env s a rng); reflexivity.
Qed.

(** ** Rewards *)

Lemma fold_left_Radd (items : list R) (acc : R) :
  exact_addition ->
  fold_left Radd items acc = Radd acc (arithmetic_sum items).
Proof.
  intros (Hassoc & _ & Hr). revert acc.
  induction items as [|x items IH]; intros acc; simpl.
  - symmetry. apply Hr.
  - rewrite IH. symmetry. apply Hassoc.
Qed.

Lemma py_sum_arithmetic_sum (items : list R) :
  exact_addition -> py_sum items = arithmetic_sum items.
Proof.
  intros Hexact. unfold py_sum. rewrite (fold_left_Radd _ _ Hexact).
  apply Hexact.
Qed.

(** C1. The reward closure of [create_env] adds up, from 0 and in list
    order, the values of the reward rules, each evaluated on the same
    [(state, action, next_state)]; where addition is exact this is the
    arithmetic sum of those values. Hence, for an environment that runs the
    rules of [create_env], is reset, and is given an action of its action
    space, [step] succeeds and returns as reward that sum over the state
    before the step, the action and the state the transitions produced; with
    no reward rule the reward is 0. *)
Theorem create_env_reward_additive (ds : DomainSpace)
    (reset_func : ResetFunction)
    (transition_functions : list TransitionFunction)
    (rewards : list RewardFunction) (terminations : list TerminatingFunction)
    (env : InnerEnv) (s : State) (a : Action) (rng : Rng) :
  same_rules env (create_env ds reset_func transition_functions
                             rewards terminations) ->
  state env = Some s ->
  contains (action_space ds) a = true ->
  (forall s0 a0 s1,
      reward_function env s0 a0 s1
      = py_sum (map (fun r => r s0 a0 s1) rewards)
      /\ (exact_addition ->
          reward_function env s0 a0 s1
          = arithmetic_sum (map (fun r => r s0 a0 s1) rewards)))
  /\ exists next_state reward done env' rng',
      InnerEnv_step env a rng = (inr (reward, done), env', rng')
      /\ (next_state, rng') = chain s a transition_functions rng
      /\ state env' = Some next_state
      /\ reward = py_sum (map (fun r => r s a next_state) rewards)
      /\ (exact_addition ->
          reward = arithmetic_sum (map (fun r => r s a next_state) rewards))
      /\ (rewards = [] -> reward = R0).
Proof.
  intros (Hds & _ & Htr & _ & Hrew & _) Hs Ha.
  assert (Hclosure : forall s0 a0 s1,
             reward_function env s0 a0 s1
             = py_sum (map (fun r => r s0 a0 s1) rewards)).
  { intros s0 a0 s1. rewrite Hrew. reflexivity. }
  split.
  { intros s0 a0 s1. split; [apply Hclosure|].
    intros Hexact. rewrite Hclosure. apply py_sum_arithmetic_sum, Hexact. }
  simpl in Hds. rewrite <- Hds in Ha.
  rewrite (InnerEnv_step_ready env s a rng Hs Ha).
  rewrite Htr. simpl.
  destruct (chain s a transition_functions rng) as [next_state rng'] eqn:Hch.
  simpl. eexists next_state, _, _, _, rng'.
  split; [reflexivity|]. split; [reflexivity|]. split; [reflexivity|].
  split; [apply Hclosure|]. split.
  - intros Hexact. rewrite Hclosure. apply py_sum_arithmetic_sum, Hexact.
  - intros ->. rewrite Hclosure. reflexivity.
Qed.

(** ** Termination *)

(** C2. The termination closure of [create_env] is true exactly when one of
    the termination predicates is true on the same triple. Hence, for an
    environment that runs the rules of [create_env], is reset, and is given
    an action of its action space, [step] succeeds and its done flag is true
    if and only if some predicate of the list is true on the state before
    the step, the action and the state the transitions produced; with no
    predicate the flag is false. *)
Theorem create_env_termination_any (ds : DomainSpace)
    (reset_func : ResetFunction)
    (transition_functions : list TransitionFunction)
    (rewards : list RewardFunction) (terminations : list TerminatingFunction)
    (env : InnerEnv) (s : State) (a : Action) (rng : Rng) :
  same_rules env (create_env ds reset_func transition_functions
                             rewards terminations) ->
  state env = Some s ->
  contains (action_space ds) a = true ->
  (forall s0 a0 s1,
      termination_function env s0 a0 s1 = true
      <-> exists t, t ∈ terminations /\ t s0 a0 s1 = true)
  /\ exists next_state reward done env' rng',
      InnerEnv_step env a rng = (inr (reward, done), env', rng')
      /\ (next_state, rng') = chain s a transition_functions rng
      /\ state env' = Some next_state
      /\ (done = true
          <-> exists t, t ∈ terminations /\ t s a next_state = true)
      /\ (terminations = [] -> done = false).
Proof.
  intros (Hds & _ & Htr & _ & _ & Hterm) Hs Ha.
  assert (Hclosure : forall s0 a0 s1,
             termination_function env s0 a0 s1 = true
             <-> exists t, t ∈ terminations /\ t s0 a0 s1 = true).
  { intros s0 a0 s1. rewrite Hterm. simpl.
    apply (py_any_map (fun t => t s0 a0 s1)). }
  split; [exact Hclosure|].
  simpl in Hds. rewrite <- Hds in Ha.
  rewrite (InnerEnv_step_ready env s a rng Hs Ha).
  rewrite Htr. simpl.
  destruct (chain s a transition_functions rng) as [next_state rng'] eqn:Hch.
  simpl. eexists next_state, _, _, _, rng'.
  split; [reflexivity|]. split; [reflexivity|]. split; [reflexivity|].
  split; [apply Hclosure|].
  intros ->. rewrite Hterm. reflexivity.
Qed.

(** ** Transitions *)

(** C3. An environment that runs the rules [create_env] makes of an empty
    transition list, is reset, and is given an action of its action space:
    [step] succeeds and the state after it is the state before it (and no
    random number was drawn). *)
Theorem empty_transitions_keep_state (ds : DomainSpace)
    (reset_func : ResetFunction)
    (rewards : list RewardFunction) (terminations : list TerminatingFunction)
    (env : InnerEnv) (s : State) (a : Action) (rng : Rng) :
  same_rules env (create_env ds reset_func [] rewards terminations) ->
  state env = Some s ->
  contains (action_space ds) a = true ->
  exists reward done env',
    InnerEnv_step env a rng = (inr (reward, done), env', rng)
    /\ state env' = state env.
Proof.
  intros (Hds & _ & Htr & _) Hs Ha.
  simpl in Hds. rewrite <- Hds in Ha.
  rewrite (InnerEnv_step_ready env s a rng Hs Ha).
  rewrite Htr. simpl. rewrite Hs.
  eexists _, _, _. split; reflexivity.
Qed.

(** ** The action encoding *)

Lemma int_to_action_inr (space : ActionSpace) (action : Z) (action_ : Action) :
  int_to_action space action = inr action_
  <-> (0 <= action)%Z /\ actions space !! Z.to_nat action = Some action_.
Proof.
  unfold int_to_action. case_bool_decide as Hpos.
  - destruct (actions space !! Z.to_nat action) as [a'|].
    + split; [intros [= ->]; auto | intros [_ [= ->]]; reflexivity].
    + split; [discriminate | intros [_ [=]]].
  - split; [discriminate | intros [H _]; contradiction].
Qed.

Lemma int_to_action_range (space : ActionSpace) (action : Z) :
  (exists action_, int_to_action space action = inr action_)
  <-> (0 <= action < Z.of_nat (num_actions space))%Z.
Proof.
  unfold num_actions. split.
  - intros (a' & H). apply int_to_action_inr in H as [Hpos Hl].
    apply lookup_lt_Some in Hl. lia.
  - intros [Hpos Hlt].
    destruct (lookup_lt_is_Some_2 (actions space) (Z.to_nat action))
      as [a' Ha']; [lia|].
    exists a'. apply int_to_action_inr. auto.
Qed.

(** Installing a representation leaves the outer environment's inner
    environment alone. *)
Lemma set_state_representation_inner (name : string) (self : GymEnvironment) :
  inner_env (outer_env (snd (set_state_representation name self)))
  = inner_env (outer_env self).
Proof.
  unfold set_state_representation.
  destruct (create_state_representation _ _); reflexivity.
Qed.

Lemma set_observation_representation_inner (name : string)
    (self : GymEnvironment) :
  inner_env (outer_env (snd (set_observation_representation name self)))
  = inner_env (outer_env self).
Proof.
  unfold set_observation_representation.
  destruct (create_observation_representation _ _); reflexivity.
Qed.

Lemma set_state_representation_action_space (name : string)
    (self : GymEnvironment) :
  gym_action_space (snd (set_state_representation name self))
  = gym_action_space self.
Proof.
  unfold set_state_representation.
  destruct (create_state_representation _ _); reflexivity.
Qed.

Lemma set_observation_representation_action_space (name : string)
    (self : GymEnvironment) :
  gym_action_space (snd (set_observation_representation name self))
  = gym_action_space self.
Proof.
  unfold set_observation_representation.
  destruct (create_observation_representation _ _); reflexivity.
Qed.

(** What [__init__] leaves in [action_space], and around which outer
    environment. *)
Lemma GymEnvironment_init_action_space
    (constructor : Rng -> result OuterEnv * Rng)
    (state_rep_override obs_rep_override : option string)
    (rng rng' : Rng) (self : GymEnvironment) :
  GymEnvironment_init constructor state_rep_override obs_rep_override rng
  = (inr self, rng') ->
  (exists outer0,
      constructor rng = (inr outer0, rng')
      /\ inner_env (outer_env self) = inner_env outer0)
  /\ gym_action_space self
     = Some (mkDiscrete (num_actions (OuterEnv_action_space (outer_env self)))).
Proof.
  unfold GymEnvironment_init.
  destruct (constructor rng) as [[exn0|outer0] rng0]; [discriminate|].
  set (self0 := mkGymEnvironment outer0 None None None).
  set (r1 := match state_rep_override with
             | Some name => set_state_representation name self0
             | None => _
             end).
  assert (H1 : inner_env (outer_env (snd r1)) = inner_env outer0).
  { subst r1. destruct state_rep_override as [name|]; [|reflexivity].
    apply set_state_representation_inner. }
  destruct r1 as [[exn1|[]] self1]; [discriminate|]. simpl in H1.
  set (r2 := match obs_rep_override with
             | Some name => set_observation_representation name self1
             | None => _
             end).
  assert (H2 : inner_env (outer_env (snd r2)) = inner_env outer0).
  { subst r2. destruct obs_rep_override as [name|]; [|exact H1].
    rewrite set_observation_representation_inner. exact H1. }
  destruct r2 as [[exn2|[]] self2]; [discriminate|]. simpl in H2.
  intros [= <- <-]. simpl. split; [|reflexivity].
  exists outer0. auto.
Qed.

(** C4. A [GymEnvironment] that [__init__] built advertises the discrete
    space of [num_actions] integers, and the integers of that space are
    exactly those [int_to_action] accepts. [step] on an accepted integer
    decodes it to the member of the action list at that position and then
    runs the step of the outer environment, hence of the inner environment,
    on that action: the wrapper holds the environment that step left, the
    random generator is as that step left it, an exception of that step is
    raised again, and the reward and the done flag returned are the ones of
    that step, beside the observation read after it and an empty info
    dict. [step] on any other integer raises what [int_to_action] raised
    and steps nothing. The builders give the action space the list
    [list(Action)]. *)
Theorem gym_action_encoding (constructor : Rng -> result OuterEnv * Rng)
    (state_rep_override obs_rep_override : option string)
    (rng0 rng1 : Rng) (self : GymEnvironment) :
  GymEnvironment_init constructor state_rep_override obs_rep_override rng0
  = (inr self, rng1) ->
  gym_action_space self
  = Some (mkDiscrete (num_actions (OuterEnv_action_space (outer_env self))))
  /\ (forall action : Z,
        Discrete_contains
          (mkDiscrete (num_actions (OuterEnv_action_space (outer_env self))))
          action = true
        <-> exists action_,
            int_to_action (OuterEnv_action_space (outer_env self)) action
            = inr action_)
  /\ (forall (action : Z) (action_ : Action) (rng : Rng),
        int_to_action (OuterEnv_action_space (outer_env self)) action
        = inr action_ ->
        let outcome := GymEnvironment_step self action rng in
        let outer_outcome := OuterEnv_step (outer_env self) action_ rng in
        let inner_outcome :=
          InnerEnv_step (inner_env (outer_env self)) action_ rng in
        actions (OuterEnv_action_space (outer_env self)) !! Z.to_nat action
        = Some action_
        /\ outcome = step_action self action_ rng
        /\ outer_env (snd (fst outcome)) = snd (fst outer_outcome)
        /\ snd outcome = snd outer_outcome
        /\ fst (fst outcome)
           = match fst (fst outer_outcome) with
             | inl exn => inl exn
             | inr (reward, done) =>
                 match OuterEnv_observation (snd (fst outer_outcome)) with
                 | inl exn => inl exn
                 | inr obs => inr (obs, reward, done, ∅)
                 end
             end
        /\ fst (fst outer_outcome) = fst (fst inner_outcome)
        /\ inner_env (snd (fst outer_outcome)) = snd (fst inner_outcome)
        /\ snd outer_outcome = snd inner_outcome)
  /\ (forall (action : Z) (exn : Exception) (rng : Rng),
        int_to_action (OuterEnv_action_space (outer_env self)) action
        = inl exn ->
        GymEnvironment_step self action rng = (inl exn, self, rng))
  /\ (forall (reset_func : ResetFunction) (rng : Rng),
        action_space (domain_space (fst (plain_navigation_task reset_func rng)))
        = mkActionSpace list_Action).
Proof.
  intros Hinit.
  apply GymEnvironment_init_action_space in Hinit as [_ Hspace].
  split; [exact Hspace|]. split; [|split; [|split]].
  - intros action. rewrite int_to_action_range.
    unfold Discrete_contains. simpl. apply bool_decide_eq_true.
  - intros action action_ rng Hdec. cbv zeta. split.
    { apply int_to_action_inr in Hdec. tauto. }
    unfold GymEnvironment_step. rewrite Hdec.
    split; [reflexivity|].
    unfold step_action, OuterEnv_step.
    destruct (InnerEnv_step (inner_env (outer_env self)) action_ rng)
      as [[[exn|[reward done]] inner'] rng'].
    + repeat split.
    + cbn [fst snd].
      destruct (OuterEnv_observation
                  (mkOuterEnv inner' (state_rep (outer_env self))
                              (observation_rep (outer_env self))));
        repeat split.
  - intros action exn rng Hdec. unfold GymEnvironment_step. rewrite Hdec.
    reflexivity.
  - intros reset_func rng. unfold plain_navigation_task.
    destruct (reset_func rng). reflexivity.
Qed.

(** ** The registry *)

Lemma dict_get_None {V : Type} (d : list (string * V)) (key : string) :
  dict_get d key = None <-> key ∉ dict_keys d.
Proof.
  induction d as [|[k v] d IH]; simpl.
  - split; [intros _ H; inversion H | reflexivity].
  - rewrite not_elem_of_cons. destruct (decide (k = key)) as [->|Hne].
    + split; [discriminate | intros [H _]; contradiction].
    + rewrite IH. split; [auto | tauto].
Qed.

Lemma dict_get_Some {V : Type} (d : list (string * V)) (key : string) :
  key ∈ dict_keys d -> exists v, dict_get d key = Some v.
Proof.
  intros Hin. destruct (dict_get d key) as [v|] eqn:Hget; [eauto|].
  apply dict_get_None in Hget. contradiction.
Qed.

(** C5. The names of the registry can be listed, and they are the
    seventeen names of the source, each once; [env_from_descr] on a listed
    name returns an environment; on any other name it raises the
    [ValueError] whose message holds the requested name. *)
Theorem env_from_descr_registry (descr : string) (rng : Rng) :
  available_descriptions
  = [ "Empty-5x5-v0"; "Empty-Random-5x5-v0"; "Empty-6x6-v0";
      "Empty-Random-6x6-v0"; "Empty-8x8-v0"; "Empty-16x16-v0";
      "FourRooms-v0"; "Dynamic-Obstacles-5x5-v0";
      "Dynamic-Obstacles-Random-5x5-v0"; "Dynamic-Obstacles-6x6-v0";
      "Dynamic-Obstacles-Random-6x6-v0"; "Dynamic-Obstacles-8x8-v0";
      "Dynamic-Obstacles-16x16-v0"; "KeyDoor-5x5-v0"; "KeyDoor-6x6-v0";
      "KeyDoor-8x8-v0"; "KeyDoor-16x16-v0" ]
  /\ NoDup available_descriptions
  /\ (descr ∈ available_descriptions ->
      exists (env : InnerEnv) (rng' : Rng),
        env_from_descr descr rng = (inr env, rng'))
  /\ (descr ∉ available_descriptions ->
      env_from_descr descr rng
      = (inl (ValueError
                ("No environment named " +:+ descr +:+ " is implemented")),
         rng)).
Proof.
  split; [reflexivity|]. split; [|split].
  - unfold available_descriptions, STRING_TO_GYM_CONSTRUCTOR, dict_keys.
    simpl map. apply (bool_decide_unpack _). vm_compute. exact I.
  - intros Hin. unfold env_from_descr.
    destruct (dict_get_Some STRING_TO_GYM_CONSTRUCTOR descr Hin)
      as [constructor ->].
    destruct (constructor rng) as [env rng']. eauto.
  - intros Hout. unfold env_from_descr.
    apply dict_get_None in Hout. rewrite Hout. reflexivity.
Qed.

(** ** Representations *)

(** C6. [set_state_representation] and [set_observation_representation]
    never change the inner environment, whose [step] and [reset] therefore
    behave as before. When the registry returns a representation for the
    name (built from the state space, respectively the observation space, of
    the inner environment), that representation is installed and the
    advertised space is recomputed from its bounds; when the registry raises,
    the exception is passed on and nothing has changed. *)
Theorem set_representation_frame (name : string) (self : GymEnvironment) :
  (inner_env (outer_env (snd (set_state_representation name self)))
   = inner_env (outer_env self)
   /\ inner_env (outer_env (snd (set_observation_representation name self)))
      = inner_env (outer_env self))
  /\ (forall (action : Action) (rng : Rng),
        InnerEnv_step
          (inner_env (outer_env (snd (set_state_representation name self))))
          action rng
        = InnerEnv_step (inner_env (outer_env self)) action rng
        /\ InnerEnv_step
             (inner_env
                (outer_env (snd (set_observation_representation name self))))
             action rng
           = InnerEnv_step (inner_env (outer_env self)) action rng
        /\ InnerEnv_reset
             (inner_env (outer_env (snd (set_state_representation name self))))
             rng
           = InnerEnv_reset (inner_env (outer_env self)) rng
        /\ InnerEnv_reset
             (inner_env
                (outer_env (snd (set_observation_representation name self))))
             rng
           = InnerEnv_reset (inner_env (outer_env self)) rng)
  /\ (forall rep,
        create_state_representation name
          (state_space (domain_space (inner_env (outer_env self)))) = inr rep ->
        exists self',
          set_state_representation name self = (inr tt, self')
          /\ state_rep (outer_env self') = Some rep
          /\ gym_state_space self'
             = Some (outer_space_to_gym_space (state_rep_space rep)))
  /\ (forall rep,
        create_observation_representation name
          (observation_space (domain_space (inner_env (outer_env self))))
        = inr rep ->
        exists self',
          set_observation_representation name self = (inr tt, self')
          /\ observation_rep (outer_env self') = Some rep
          /\ gym_observation_space self'
             = Some (outer_space_to_gym_space (observation_rep_space rep)))
  /\ (forall exn,
        create_state_representation name
          (state_space (domain_space (inner_env (outer_env self)))) = inl exn ->
        set_state_representation name self = (inl exn, self))
  /\ (forall exn,
        create_observation_representation name
          (observation_space (domain_space (inner_env (outer_env self))))
        = inl exn ->
        set_observation_representation name self = (inl exn, self)).
Proof.
  split; [split|split; [|repeat split]].
  - apply set_state_representation_inner.
  - apply set_observation_representation_inner.
  - intros action rng.
    rewrite set_state_representation_inner,
      set_observation_representation_inner.
    repeat split.
  - intros rep Hrep. unfold set_state_representation. rewrite Hrep.
    eexists. repeat split.
  - intros rep Hrep. unfold set_observation_representation. rewrite Hrep.
    eexists. repeat split.
  - intros exn Hexn. unfold set_state_representation. rewrite Hexn.
    reflexivity.
  - intros exn Hexn. unfold set_observation_representation. rewrite Hexn.
    reflexivity.
Qed.

Lemma reinstall_state_representation (name : string)
    (self self1 : GymEnvironment) :
  set_state_representation name self = (inr tt, self1) ->
  set_state_representation name self1 = (inr tt, self1).
Proof.
  unfold set_state_representation.
  destruct (create_state_representation name
              (state_space (domain_space (inner_env (outer_env self)))))
    as [exn|rep] eqn:Hrep; [discriminate|].
  intros [= <-]. simpl. rewrite Hrep. reflexivity.
Qed.

(** C7. When installing the observation representation of a name has
    succeeded, installing the same name again succeeds too and the
    advertised observation space after it is the one before it; indeed the
    whole wrapper is as it was. The same holds of the state representation
    (lemma [reinstall_state_representation]). *)
Theorem reinstall_observation_representation (name : string)
    (self self1 : GymEnvironment) :
  set_observation_representation name self = (inr tt, self1) ->
  exists self2,
    set_observation_representation name self1 = (inr tt, self2)
    /\ gym_observation_space self2 = gym_observation_space self1
    /\ self2 = self1.
Proof.
  unfold set_observation_representation.
  destruct (create_observation_representation name
              (observation_space (domain_space (inner_env (outer_env self)))))
    as [exn|rep] eqn:Hrep; [discriminate|].
  intros [= <-]. simpl. rewrite Hrep.
  eexists. repeat split.
Qed.

(** ** Grid shapes *)

Lemma consistent_iff_constant (reset_func : ResetFunction)
    (builder : Rng -> InnerEnv * Rng) (rng : Rng) :
  shape_from_one_reset reset_func builder ->
  consistent_with_resets (fst (builder rng)) <-> constant_grid_shape reset_func.
Proof.
  intros Hone. destruct (Hone rng) as (_ & Hshape & Hreset & _).
  unfold consistent_with_resets, constant_grid_shape.
  rewrite Hshape, Hreset. split.
  - intros Hcons rng1 rng2. rewrite (Hcons rng1), (Hcons rng2). reflexivity.
  - intros Hconst rng'. apply Hconst.
Qed.

(** C8. Each of [plain_navigation_task], [env_dynamic_obstacle] and
    [gym_keydoor_env] calls its reset function once while it builds the
    environment and takes the grid shape of the state space from the state
    that call returned. The environment built is consistent with every later
    reset if and only if the grid shape of the reset function's states is
    the same for all samples. *)
Theorem builders_sample_grid_shape :
  (forall reset_func : ResetFunction,
      shape_from_one_reset reset_func (plain_navigation_task reset_func))
  /\ (forall (size : Z) (random_pos : bool) (num_obstacles : Z),
        shape_from_one_reset
          (reset_dynamic_obstacles (size + 2) (size + 2) num_obstacles
                                   random_pos)
          (env_dynamic_obstacle size random_pos num_obstacles))
  /\ (forall size : Z,
        shape_from_one_reset (reset_keydoor (size + 2) (size + 2))
                             (gym_keydoor_env size))
  /\ (forall (reset_func : ResetFunction) (builder : Rng -> InnerEnv * Rng)
             (rng : Rng),
        shape_from_one_reset reset_func builder ->
        (consistent_with_resets (fst (builder rng))
         <-> constant_grid_shape reset_func)).
Proof.
  split; [|split; [|split]].
  - intros reset_func rng. unfold plain_navigation_task.
    destruct (reset_func rng) as [sample rng']. repeat split.
  - intros size random_pos num_obstacles rng. unfold env_dynamic_obstacle.
    destruct (reset_dynamic_obstacles _ _ _ _ rng) as [sample rng'].
    repeat split.
  - intros size rng. unfold gym_keydoor_env.
    destruct (reset_keydoor _ _ rng) as [sample rng']. repeat split.
  - intros reset_func builder rng. apply consistent_iff_constant.
Qed.

(** ** Advertised bounds *)

Lemma zeros_like_zero (v : ndarray) :
  arr_shape (zeros_like v) = arr_shape v
  /\ length (arr_data (zeros_like v)) = length (arr_data v)
  /\ Forall (fun x => x = 0%Z) (arr_data (zeros_like v)).
Proof.
  unfold zeros_like. simpl. split; [reflexivity|]. split.
  - apply length_map.
  - induction (arr_data v) as [|x data IH]; simpl; constructor; auto.
Qed.

Lemma wrap_np_int_fits (x : Z) :
  (- 2 ^ 63 <= x < 2 ^ 63)%Z -> wrap_np_int x = x.
Proof.
  unfold wrap_np_int, np_int_bits.
  change (2 ^ (64 - 1))%Z with 9223372036854775808%Z.
  change (2 ^ 64)%Z with 18446744073709551616%Z.
  change (2 ^ 63)%Z with 9223372036854775808%Z.
  intros Hx. rewrite Z.mod_small by lia. lia.
Qed.

Lemma astype_fits (v : ndarray) : fits_np_int v -> astype np_int v = v.
Proof.
  destruct v as [sh data]. unfold fits_np_int, astype. simpl.
  intros Hfits. f_equal.
  induction Hfits as [|x data Hx _ IH]; simpl; [reflexivity|].
  rewrite IH, (wrap_np_int_fits x Hx). reflexivity.
Qed.

Lemma astype_zeros_like (v : ndarray) :
  astype np_int (zeros_like v) = zeros_like v.
Proof.
  apply astype_fits. unfold fits_np_int, zeros_like. simpl.
  induction (arr_data v) as [|x data IH]; simpl; constructor;
    [lia | exact IH].
Qed.

Lemma astype_shape (v : ndarray) :
  arr_shape (astype np_int v) = arr_shape v
  /\ length (arr_data (astype np_int v)) = length (arr_data v).
Proof. simpl. split; [reflexivity | apply length_map]. Qed.

(** C9, as the code has it. The gym space made of a representation's space
    has the same names. Under a name of the space there is a box of dtype
    [np.int]; its lower bound is [zeros_like] the representation's array, of
    the same shape and size and zero in every item; its upper bound is the
    representation's array converted to [np.int], of the same shape and
    size, and the array itself when its items fit [np.int]. *)
Theorem outer_space_to_gym_space_bounds (space : gmap string ndarray)
    (name : string) :
  dom (outer_space_to_gym_space space) = dom space
  /\ (space !! name = None -> outer_space_to_gym_space space !! name = None)
  /\ forall v : ndarray,
      space !! name = Some v ->
      exists box : Box,
        outer_space_to_gym_space space !! name = Some box
        /\ dtype box = np_int
        /\ low box = zeros_like v
        /\ arr_shape (low box) = arr_shape v
        /\ length (arr_data (low box)) = length (arr_data v)
        /\ Forall (fun x => x = 0%Z) (arr_data (low box))
        /\ high box = astype np_int v
        /\ arr_shape (high box) = arr_shape v
        /\ length (arr_data (high box)) = length (arr_data v)
        /\ (fits_np_int v -> high box = v).
Proof.
  unfold outer_space_to_gym_space.
  split; [apply dom_fmap_L|]. split.
  - intros Hnone. rewrite lookup_fmap, Hnone. reflexivity.
  - intros v Hv. rewrite lookup_fmap, Hv. simpl.
    eexists. split; [reflexivity|]. unfold gym_spaces_Box.
    cbn [dtype low high]. rewrite astype_zeros_like.
    split; [reflexivity|]. split; [reflexivity|].
    destruct (zeros_like_zero v) as (Hsh & Hlen & Hzero).
    split; [exact Hsh|]. split; [exact Hlen|]. split; [exact Hzero|].
    split; [reflexivity|].
    destruct (astype_shape v) as [Hsh' Hlen'].
    split; [exact Hsh'|]. split; [exact Hlen'|].
    apply astype_fits.
Qed.

End Properties.

(** ** Equality of observations *)

(** C10. [Observation.__eq__] on another observation returns a truth value,
    which is true if and only if the grids are equal and the agents are
    equal; on a value that is no observation it returns [NotImplemented]. *)
Theorem Observation_eq_componentwise (Grid Agent Other : Type)
    (Grid_eq : Grid -> Grid -> bool) (Agent_eq : Agent -> Agent -> bool)
    (a b : @observation_py.Observation Grid Agent) (other : Other) :
  (exists truth,
      observation_py.__eq__ (Other := Other) Grid_eq Agent_eq a
        (observation_py.AnObservation b) = observation_py.Truth truth
      /\ (truth = true
          <-> Grid_eq (observation_py.grid a) (observation_py.grid b) = true
              /\ Agent_eq (observation_py.agent a) (observation_py.agent b)
                 = true))
  /\ observation_py.__eq__ Grid_eq Agent_eq a
       (observation_py.AnotherObject other) = observation_py.NotImplemented.
Proof.
  split; [|reflexivity].
  simpl. eexists. split; [reflexivity|].
  destruct (Grid_eq _ _); [tauto|].
  split; [discriminate | intros [H _]; discriminate].
Qed.

(** * Further properties of the code *)

Section FactoryProperties.

Context {D : Domain} {ext : Collaborators}.

(** ** Rule lists *)

Lemma arithmetic_sum_app (xs ys : list R) :
  exact_addition ->
  arithmetic_sum (xs ++ ys) = Radd (arithmetic_sum xs) (arithmetic_sum ys).
Proof.
  intros (Hassoc & Hl & _). induction xs as [|x xs IH]; simpl.
  - symmetry. apply Hl.
  - unfold arithmetic_sum in *. simpl. rewrite IH. apply Hassoc.
Qed.

Lemma py_sum_app (xs ys : list R) :
  exact_addition -> py_sum (xs ++ ys) = Radd (py_sum xs) (py_sum ys).
Proof.
  intros Hexact. rewrite !py_sum_arithmetic_sum by exact Hexact.
  apply arithmetic_sum_app, Hexact.
Qed.

Lemma py_sum_Permutation (xs ys : list R) :
  exact_addition ->
  (forall x y : R, Radd x y = Radd y x) ->
  xs ≡ₚ ys -> py_sum xs = py_sum ys.
Proof.
  intros Hexact Hcomm Hperm.
  rewrite !py_sum_arithmetic_sum by exact Hexact.
  destruct Hexact as (Hassoc & _ & _).
  unfold arithmetic_sum.
  induction Hperm as [|x xs ys _ IH|x y xs|xs ys zs _ IH1 _ IH2]; simpl.
  - reflexivity.
  - rewrite IH. reflexivity.
  - rewrite !Hassoc, (Hcomm y x). reflexivity.
  - rewrite IH1. exact IH2.
Qed.

Lemma py_any_app (xs ys : list bool) :
  py_any (xs ++ ys) = py_any xs || py_any ys.
Proof.
  induction xs as [|b xs IH]; simpl; [reflexivity|].
  destruct b; [reflexivity | exact IH].
Qed.

(** The reward of the rules of two lists put together is the reward of the
    first list plus the reward of the second, where addition is exact. *)
Theorem create_env_reward_app (ds : DomainSpace) (reset_func : ResetFunction)
    (transition_functions : list TransitionFunction)
    (rewards1 rewards2 : list RewardFunction)
    (terminations : list TerminatingFunction)
    (s : State) (a : Action) (s' : State) :
  exact_addition ->
  reward_function
    (create_env ds reset_func transition_functions (rewards1 ++ rewards2)
                terminations) s a s'
  = Radd
      (reward_function
         (create_env ds reset_func transition_functions rewards1 terminations)
         s a s')
      (reward_function
         (create_env ds reset_func transition_functions rewards2 terminations)
         s a s').
Proof.
  intros Hexact. simpl. rewrite map_app. apply py_sum_app, Hexact.
Qed.

(** Where addition is exact and commutative, the reward does not depend on
    the order in which the reward rules are listed. *)
Theorem create_env_reward_order (ds : DomainSpace) (reset_func : ResetFunction)
    (transition_functions : list TransitionFunction)
    (rewards1 rewards2 : list RewardFunction)
    (terminations : list TerminatingFunction)
    (s : State) (a : Action) (s' : State) :
  exact_addition ->
  (forall x y : R, Radd x y = Radd y x) ->
  rewards1 ≡ₚ rewards2 ->
  reward_function
    (create_env ds reset_func transition_functions rewards1 terminations)
    s a s'
  = reward_function
      (create_env ds reset_func transition_functions rewards2 terminations)
      s a s'.
Proof.
  intros Hexact Hcomm Hperm. simpl.
  apply py_sum_Permutation; [exact Hexact | exact Hcomm |].
  apply Permutation_map, Hperm.
Qed.

(** The done flag of the predicates of two lists put together is the "or"
    of the flags of the two lists: more predicates never turn a true flag
    into a false one. *)
Theorem create_env_termination_app (ds : DomainSpace)
    (reset_func : ResetFunction)
    (transition_functions : list TransitionFunction)
    (rewards : list RewardFunction)
    (terminations1 terminations2 : list TerminatingFunction)
    (s : State) (a : Action) (s' : State) :
  termination_function
    (create_env ds reset_func transition_functions rewards
                (terminations1 ++ terminations2)) s a s'
  = termination_function
      (create_env ds reset_func transition_functions rewards terminations1)
      s a s'
    || termination_function
         (create_env ds reset_func transition_functions rewards terminations2)
         s a s'.
Proof. simpl. rewrite map_app. apply py_any_app. Qed.

(** The done flag depends on which predicates are listed only: neither
    their order nor a predicate listed twice changes it. *)
Theorem create_env_termination_members (ds : DomainSpace)
    (reset_func : ResetFunction)
    (transition_functions : list TransitionFunction)
    (rewards : list RewardFunction)
    (terminations1 terminations2 : list TerminatingFunction)
    (s : State) (a : Action) (s' : State) :
  (forall t, t ∈ terminations1 <-> t ∈ terminations2) ->
  termination_function
    (create_env ds reset_func transition_functions rewards terminations1)
    s a s'
  = termination_function
      (create_env ds reset_func transition_functions rewards terminations2)
      s a s'.
Proof.
  intros Hsame. simpl. apply eq_true_iff_eq.
  rewrite !(py_any_map (fun t => t s a s')).
  split; intros (t & Ht & Htrue); exists t; split; try exact Htrue;
    apply Hsame, Ht.
Qed.

(** ** The registry and the builders *)

Lemma dict_get_elem_of {V : Type} (d : list (string * V)) (key : string)
    (v : V) :
  dict_get d key = Some v -> (key, v) ∈ d.
Proof.
  induction d as [|[k w] d IH]; simpl; [discriminate|].
  destruct (decide (k = key)) as [->|Hne].
  - intros [= ->]. left.
  - intros H. right. apply IH, H.
Qed.

Lemma dict_get_NoDup {V : Type} (d : list (string * V)) (key : string)
    (v : V) :
  NoDup (dict_keys d) -> (key, v) ∈ d -> dict_get d key = Some v.
Proof.
  induction d as [|[k w] d IH]; simpl; intros Hnd Hin.
  - inversion Hin.
  - apply NoDup_cons in Hnd as [Hk Hnd].
    apply elem_of_cons in Hin as [[= -> ->]|Hin].
    + rewrite decide_True by reflexivity. reflexivity.
    + destruct (decide (k = key)) as [->|Hne]; [|apply IH; assumption].
      exfalso. apply Hk. unfold dict_keys.
      apply (list_elem_of_fmap_2 fst) in Hin. exact Hin.
Qed.

Lemma registry_NoDup : NoDup (dict_keys STRING_TO_GYM_CONSTRUCTOR).
Proof.
  unfold STRING_TO_GYM_CONSTRUCTOR, dict_keys. simpl map.
  apply (bool_decide_unpack _). vm_compute. exact I.
Qed.

(** Every item of the registry is found under its name: [env_from_descr] on
    the name runs the constructor registered with it, and nothing else. *)
Theorem env_from_descr_registered (descr : string)
    (constructor : Rng -> InnerEnv * Rng) (rng : Rng) :
  (descr, constructor) ∈ STRING_TO_GYM_CONSTRUCTOR ->
  env_from_descr descr rng
  = (inr (fst (constructor rng)), snd (constructor rng)).
Proof.
  intros Hin. unfold env_from_descr.
  rewrite (dict_get_NoDup _ _ _ registry_NoDup Hin).
  destruct (constructor rng); reflexivity.
Qed.

Lemma plain_navigation_task_fresh (reset_func : ResetFunction) :
  freshly_built (plain_navigation_task reset_func).
Proof.
  intros rng. unfold plain_navigation_task.
  destruct (reset_func rng) as [sample rng'] eqn:Hreset. simpl.
  rewrite Hreset. repeat split.
Qed.

Lemma env_dynamic_obstacle_fresh (size : Z) (random_pos : bool)
    (num_obstacles : Z) :
  freshly_built (env_dynamic_obstacle size random_pos num_obstacles).
Proof.
  intros rng. unfold env_dynamic_obstacle.
  destruct (reset_dynamic_obstacles _ _ _ _ rng) as [sample rng'] eqn:Hreset.
  simpl. rewrite Hreset. repeat split.
Qed.

Lemma gym_keydoor_env_fresh (size : Z) : freshly_built (gym_keydoor_env size).
Proof.
  intros rng. unfold gym_keydoor_env.
  destruct (reset_keydoor _ _ rng) as [sample rng'] eqn:Hreset.
  simpl. rewrite Hreset. repeat split.
Qed.

Lemma registry_fresh :
  Forall (fun item => freshly_built (snd item)) STRING_TO_GYM_CONSTRUCTOR.
Proof.
  unfold STRING_TO_GYM_CONSTRUCTOR, env_empty, env_four_room.
  repeat constructor; simpl;
    first [ apply plain_navigation_task_fresh
          | apply env_dynamic_obstacle_fresh
          | apply gym_keydoor_env_fresh ].
Qed.

(** Whatever name [env_from_descr] is asked for, the environment it returns
    observes a 7 by 7 window, accepts the actions [list(Action)], and has
    cost one draw of its own reset function, from which its state space has
    the grid shape. *)
Theorem env_from_descr_fresh (descr : string) (rng rng' : Rng)
    (env : InnerEnv) :
  env_from_descr descr rng = (inr env, rng') ->
  obs_grid_shape (observation_space (domain_space env)) = mkShape 7 7
  /\ action_space (domain_space env) = mkActionSpace list_Action
  /\ rng' = snd (reset_function env rng)
  /\ grid_shape (state_space (domain_space env))
     = shape (grid (fst (reset_function env rng))).
Proof.
  unfold env_from_descr.
  destruct (dict_get STRING_TO_GYM_CONSTRUCTOR descr)
    as [constructor|] eqn:Hget; [|discriminate].
  apply dict_get_elem_of in Hget.
  pose proof registry_fresh as Hall. rewrite Forall_forall in Hall.
  specialize (Hall _ Hget rng). simpl in Hall.
  destruct (constructor rng) as [env0 rng0]. simpl in Hall.
  intros [= <- <-]. exact Hall.
Qed.

(** What ends an episode and what is rewarded, per family of builders: the
    navigation tasks and the key-door task know the goal only; the
    dynamic-obstacle task also ends on a bump into a moving obstacle or a
    wall. The rewards are added to 0 in the order listed. *)
Lemma builders_rules (reset_func : ResetFunction) (size num_obstacles : Z)
    (random_pos : bool) (rng : Rng) (s : State) (a : Action) (s' : State) :
  (termination_function (fst (plain_navigation_task reset_func rng)) s a s'
   = terminating_functions_reach_goal s a s'
   /\ reward_function (fst (plain_navigation_task reset_func rng)) s a s'
      = Radd R0 (reward_functions_reach_goal s a s'))
  /\ (termination_function (fst (gym_keydoor_env size rng)) s a s'
      = terminating_functions_reach_goal s a s'
      /\ reward_function (fst (gym_keydoor_env size rng)) s a s'
         = Radd R0 (reward_functions_reach_goal s a s'))
  /\ (termination_function
        (fst (env_dynamic_obstacle size random_pos num_obstacles rng)) s a s'
      = terminating_functions_reach_goal s a s'
        || terminating_functions_bump_moving_obstacle s a s'
        || terminating_functions_bump_into_wall s a s'
      /\ reward_function
           (fst (env_dynamic_obstacle size random_pos num_obstacles rng))
           s a s'
         = Radd (Radd (Radd R0 (reward_functions_reach_goal s a s'))
                      (reward_functions_bump_moving_obstacle s a s'))
                (reward_functions_bump_into_wall s a s')).
Proof.
  unfold plain_navigation_task, gym_keydoor_env, env_dynamic_obstacle.
  destruct (reset_func rng), (reset_keydoor _ _ rng),
    (reset_dynamic_obstacles _ _ _ _ rng). simpl.
  destruct (terminating_functions_reach_goal s a s'),
    (terminating_functions_bump_moving_obstacle s a s'),
    (terminating_functions_bump_into_wall s a s'); repeat split.
Qed.


Lemma plain_navigation_task_ends (reset_func : ResetFunction) :
  ends_by_listed_rules (plain_navigation_task reset_func).
Proof.
  intros rng s a s'.
  destruct (builders_rules reset_func 0 0 false rng s a s') as [[-> _] _].
  split; auto.
Qed.

Lemma gym_keydoor_env_ends (size : Z) :
  ends_by_listed_rules (gym_keydoor_env size).
Proof.
  intros rng s a s'.
  destruct (builders_rules (reset_keydoor 0 0) size 0 false rng s a s')
    as (_ & [-> _] & _).
  split; auto.
Qed.

Lemma env_dynamic_obstacle_ends (size : Z) (random_pos : bool)
    (num_obstacles : Z) :
  ends_by_listed_rules (env_dynamic_obstacle size random_pos num_obstacles).
Proof.
  intros rng s a s'.
  destruct (builders_rules (reset_keydoor 0 0) size num_obstacles random_pos
              rng s a s') as (_ & _ & [-> _]).
  destruct (terminating_functions_reach_goal s a s'),
    (terminating_functions_bump_moving_obstacle s a s'),
    (terminating_functions_bump_into_wall s a s'); simpl; auto.
Qed.

Lemma registry_ends :
  Forall (fun item => ends_by_listed_rules (snd item))
         STRING_TO_GYM_CONSTRUCTOR.
Proof.
  unfold STRING_TO_GYM_CONSTRUCTOR, env_empty, env_four_room.
  repeat (apply Forall_cons_2;
          [ simpl;
            first [ apply plain_navigation_task_ends
                  | apply env_dynamic_obstacle_ends
                  | apply gym_keydoor_env_ends ] | ]).
  apply Forall_nil_2.
Qed.

(** In every environment of the registry an episode ends when the goal is
    reached, and it ends for no other reason than the goal, a bump into a
    moving obstacle or a bump into a wall. *)
Theorem env_from_descr_ends (descr : string) (rng rng' : Rng)
    (env : InnerEnv) (s : State) (a : Action) (s' : State) :
  env_from_descr descr rng = (inr env, rng') ->
  (terminating_functions_reach_goal s a s' = true ->
   termination_function env s a s' = true)
  /\ (termination_function env s a s' = true ->
      terminating_functions_reach_goal s a s' = true
      \/ terminating_functions_bump_moving_obstacle s a s' = true
      \/ terminating_functions_bump_into_wall s a s' = true).
Proof.
  unfold env_from_descr.
  destruct (dict_get STRING_TO_GYM_CONSTRUCTOR descr)
    as [constructor|] eqn:Hget; [|discriminate].
  apply dict_get_elem_of in Hget.
  pose proof registry_ends as Hall. rewrite Forall_forall in Hall.
  specialize (Hall _ Hget rng s a s'). simpl in Hall.
  destruct (constructor rng) as [env0 rng0]. simpl in Hall.
  intros [= <- <-]. exact Hall.
Qed.


End FactoryProperties.


Section WrapperProperties.

Context {D : Domain} {ext : Collaborators}.

(** ** Advertised boxes *)




Lemma zeros_below (data : list Z) :
  Forall2 Z.le (map (fun _ => 0%Z) data) data
  <-> Forall (fun x => (0 <= x)%Z) data.
Proof.
  induction data as [|x data IH]; simpl.
  - split; constructor.
  - rewrite Forall2_cons, Forall_cons, IH. reflexivity.
Qed.

Lemma zeros_below_wrapped (data : list Z) :
  Forall2 Z.le (map wrap_np_int (map (fun _ => 0%Z) data))
               (map wrap_np_int data)
  <-> Forall (fun x => (0 <= x)%Z) (map wrap_np_int data).
Proof.
  induction data as [|x data IH]; simpl.
  - split; constructor.
  - rewrite Forall2_cons, Forall_cons, IH. reflexivity.
Qed.

(** Every advertised box holds a point exactly when no bound, converted to
    [np.int], is negative. *)
Lemma outer_space_to_gym_space_inhabited_cast (space : gmap string ndarray) :
  (forall name box,
      outer_space_to_gym_space space !! name = Some box -> box_inhabited box)
  <-> (forall name v,
          space !! name = Some v -> nonnegative (astype np_int v)).
Proof.
  unfold outer_space_to_gym_space, box_inhabited, nonnegative. split.
  - intros Hbox name v Hv.
    specialize (Hbox name (gym_spaces_Box (zeros_like v) v np_int)).
    rewrite lookup_fmap, Hv in Hbox. apply zeros_below_wrapped, Hbox.
    reflexivity.
  - intros Hnn name box Hbox. rewrite lookup_fmap in Hbox.
    destruct (space !! name) as [v|] eqn:Hv; [|discriminate].
    injection Hbox as <-. simpl. apply zeros_below_wrapped, (Hnn name), Hv.
Qed.

(** For a space of integer arrays whose bounds all fit [np.int], every
    advertised box holds a point exactly when no bound of the space is
    negative; the function checks neither, and a negative bound is
    advertised as a box whose lower bound 0 lies above its upper bound. (A
    bound that does not fit can be advertised as such a box without being
    negative: see [wide_space_advertised].) *)
Theorem outer_space_to_gym_space_inhabited (space : gmap string ndarray) :
  space_fits space ->
  (forall name box,
      outer_space_to_gym_space space !! name = Some box -> box_inhabited box)
  <-> (forall name v, space !! name = Some v -> nonnegative v).
Proof.
  intros Hfits. rewrite outer_space_to_gym_space_inhabited_cast.
  split; intros Hnn name v Hv; specialize (Hnn name v Hv);
    pose proof (astype_fits v (Hfits name v Hv)) as Hcast.
  - rewrite Hcast in Hnn. exact Hnn.
  - rewrite Hcast. exact Hnn.
Qed.

(** ** The advertised spaces follow the representations *)

(** The wrapper [__init__] returns advertises the spaces of the
    representations it holds, whether they came with the outer environment
    or from the overrides. *)
Theorem GymEnvironment_init_consistent
    (constructor : Rng -> result OuterEnv * Rng)
    (state_rep_override obs_rep_override : option string)
    (rng rng' : Rng) (self : GymEnvironment) :
  GymEnvironment_init constructor state_rep_override obs_rep_override rng
  = (inr self, rng') ->
  advertised_consistent self.
Proof.
  unfold GymEnvironment_init, advertised_consistent.
  destruct (constructor rng) as [[exn0|outer0] rng0]; [discriminate|].
  unfold set_state_representation, set_observation_representation.
  destruct state_rep_override as [name1|], obs_rep_override as [name2|]; simpl;
    repeat match goal with
           | |- context [create_state_representation ?n ?sp] =>
               destruct (create_state_representation n sp); simpl
           | |- context [create_observation_representation ?n ?sp] =>
               destruct (create_observation_representation n sp); simpl
           end;
    try discriminate; intros [= <- <-]; simpl; split;
    try reflexivity;
    destruct (state_rep outer0), (observation_rep outer0); reflexivity.
Qed.

(** Both setters keep the advertised spaces in step with the installed
    representations, whether the registry returns or raises. *)
Theorem setters_keep_consistent (name : string) (self : GymEnvironment) :
  advertised_consistent self ->
  advertised_consistent (snd (set_state_representation name self))
  /\ advertised_consistent (snd (set_observation_representation name self)).
Proof.
  unfold advertised_consistent, set_state_representation,
    set_observation_representation.
  intros [Hs Ho].
  destruct (create_state_representation _ _),
    (create_observation_representation _ _); simpl; auto.
Qed.

(** [reset] and [step] assign none of the advertised spaces, whatever the
    outcome of the call. *)
Theorem reset_step_keep_spaces (self : GymEnvironment) (action : Z)
    (rng : Rng) :
  (gym_state_space (snd (fst (GymEnvironment_reset self rng)))
   = gym_state_space self
   /\ gym_observation_space (snd (fst (GymEnvironment_reset self rng)))
      = gym_observation_space self
   /\ gym_action_space (snd (fst (GymEnvironment_reset self rng)))
      = gym_action_space self)
  /\ (gym_state_space (snd (fst (GymEnvironment_step self action rng)))
      = gym_state_space self
      /\ gym_observation_space (snd (fst (GymEnvironment_step self action rng)))
         = gym_observation_space self
      /\ gym_action_space (snd (fst (GymEnvironment_step self action rng)))
         = gym_action_space self).
Proof.
  split.
  - unfold GymEnvironment_reset.
    destruct (OuterEnv_reset (outer_env self) rng). simpl. auto.
  - unfold GymEnvironment_step, step_action.
    destruct (int_to_action _ action) as [exn|action_]; [simpl; auto|].
    destruct (OuterEnv_step (outer_env self) action_ rng) as [[r outer'] rng'].
    destruct r as [exn|[reward done]]; [simpl; auto|].
    destruct (OuterEnv_observation outer'); simpl; auto.
Qed.

(** The two setters do not interfere: in either order they leave the same
    wrapper. *)
Theorem setters_commute (name1 name2 : string) (self : GymEnvironment) :
  snd (set_observation_representation name2
         (snd (set_state_representation name1 self)))
  = snd (set_state_representation name1
           (snd (set_observation_representation name2 self))).
Proof.
  unfold set_state_representation, set_observation_representation.
  destruct (create_state_representation name1 _) eqn:H1,
    (create_observation_representation name2 _) eqn:H2;
    simpl; rewrite ?H1, ?H2; reflexivity.
Qed.

(** An override of [__init__] is the setter run on the wrapper built
    without overrides: the same wrapper results, or the same exception. *)
Theorem GymEnvironment_init_overrides
    (constructor : Rng -> result OuterEnv * Rng)
    (state_rep_override obs_rep_override : option string)
    (rng rng' : Rng) (self0 : GymEnvironment) :
  GymEnvironment_init constructor None None rng = (inr self0, rng') ->
  GymEnvironment_init constructor state_rep_override obs_rep_override rng
  = (install_overrides state_rep_override obs_rep_override self0, rng').
Proof.
  unfold GymEnvironment_init, install_overrides.
  destruct (constructor rng) as [[exn0|outer0] rng0]; [discriminate|].
  simpl. intros [= <- <-].
  unfold set_state_representation, set_observation_representation.
  destruct state_rep_override as [name1|], obs_rep_override as [name2|]; simpl;
    repeat match goal with
           | |- context [create_state_representation ?n ?sp] =>
               destruct (create_state_representation n sp) eqn:?; simpl
           | |- context [create_observation_representation ?n ?sp] =>
               destruct (create_observation_representation n sp) eqn:?; simpl
           end;
    reflexivity.
Qed.

(** [from_environment] never raises and draws no random number: it wraps
    the outer environment as it is and advertises the spaces of the
    representations that environment holds. *)
Theorem from_environment_wraps (env : OuterEnv) (rng : Rng) :
  exists self,
    from_environment env rng = (inr self, rng)
    /\ outer_env self = env
    /\ advertised_consistent self.
Proof.
  unfold from_environment, GymEnvironment_init, advertised_consistent.
  simpl. eexists. split; [reflexivity|]. simpl.
  destruct (state_rep env), (observation_rep env); repeat split.
Qed.

(** ** Registration *)

Lemma register_loop_maps (items : list (string * (Rng -> InnerEnv * Rng)))
    (acc : list string * list (string * (Rng -> result OuterEnv * Rng))) :
  register_loop items acc
  = (fst acc ++ map (fun item => "GridVerse-" +:+ fst item) items,
     snd acc
     ++ map (fun item =>
               ("GridVerse-" +:+ fst item, outer_env_constructor (snd item)))
            items).
Proof.
  unfold register_loop. revert acc.
  induction items as [|item items IH]; intros [ids registered]; simpl.
  - rewrite !app_nil_r. reflexivity.
  - rewrite IH. simpl. rewrite <- !app_assoc. reflexivity.
Qed.

(** The registration loop registers one id per name of the factory's
    registry, the name behind the prefix "GridVerse-", in the registry's
    order and with the name's builder inside [outer_env_constructor]; no id
    is registered twice, and [env_ids] lists exactly the ids registered. *)
Theorem register_environments_ids :
  env_ids = map (fun key => "GridVerse-" +:+ key) available_descriptions
  /\ NoDup env_ids
  /\ dict_keys (snd register_environments) = env_ids
  /\ forall (key : string) (builder : Rng -> InnerEnv * Rng),
      (key, builder) ∈ STRING_TO_GYM_CONSTRUCTOR ->
      dict_get (snd register_environments) ("GridVerse-" +:+ key)
      = Some (outer_env_constructor builder).
Proof.
  unfold env_ids, register_environments, available_descriptions.
  rewrite register_loop_maps. cbn [fst snd app].
  assert (Hids : map (fun item : string * (Rng -> InnerEnv * Rng) =>
                        "GridVerse-" +:+ fst item) STRING_TO_GYM_CONSTRUCTOR
                 = map (fun key => "GridVerse-" +:+ key)
                       (dict_keys STRING_TO_GYM_CONSTRUCTOR)).
  { unfold dict_keys. rewrite map_map. reflexivity. }
  assert (Hnd : NoDup (map (fun key => "GridVerse-" +:+ key)
                           (dict_keys STRING_TO_GYM_CONSTRUCTOR))).
  { apply (NoDup_fmap_2 (String.app "GridVerse-")), registry_NoDup. }
  assert (Hkeys : dict_keys
                    (map (fun item : string * (Rng -> InnerEnv * Rng) =>
                            ("GridVerse-" +:+ fst item,
                             outer_env_constructor (snd item)))
                         STRING_TO_GYM_CONSTRUCTOR)
                  = map (fun key => "GridVerse-" +:+ key)
                        (dict_keys STRING_TO_GYM_CONSTRUCTOR)).
  { unfold dict_keys. rewrite !map_map. reflexivity. }
  split; [exact Hids|]. split; [rewrite Hids; exact Hnd|].
  split; [rewrite Hkeys, Hids; reflexivity|].
  intros key builder Hin. apply dict_get_NoDup.
  - rewrite Hkeys. exact Hnd.
  - apply (list_elem_of_fmap_2
             (fun item : string * (Rng -> InnerEnv * Rng) =>
                ("GridVerse-" +:+ fst item, outer_env_constructor (snd item))))
      in Hin.
    exact Hin.
Qed.

(** The wrapper made from a registered constructor, with no override: when
    the registry of observation representations knows "default" for the
    environment's observation space, the wrapper advertises no state space,
    the observation space of that representation and the discrete space of
    the action space [ActionSpace(list(Action))], after the one draw of the
    builder; when it does not, [__init__] raises what the registry raised. *)
Theorem registered_wrapper (builder : Rng -> InnerEnv * Rng) (rng : Rng) :
  freshly_built builder ->
  match create_observation_representation "default"
          (observation_space (domain_space (fst (builder rng)))) with
  | inr rep =>
      GymEnvironment_init (outer_env_constructor builder) None None rng
      = (inr (mkGymEnvironment
                (mkOuterEnv (fst (builder rng)) None (Some rep))
                None
                (Some (outer_space_to_gym_space (observation_rep_space rep)))
                (Some (mkDiscrete (num_actions (mkActionSpace list_Action))))),
         snd (reset_function (fst (builder rng)) rng))
  | inl exn =>
      GymEnvironment_init (outer_env_constructor builder) None None rng
      = (inl exn, snd (reset_function (fst (builder rng)) rng))
  end.
Proof.
  intros Hfresh. destruct (Hfresh rng) as (_ & Hact & Hrng & _).
  unfold GymEnvironment_init, outer_env_constructor.
  rewrite <- Hrng.
  destruct (builder rng) as [env rng0]. simpl in *.
  destruct (create_observation_representation _ _) as [exn|rep];
    [reflexivity|].
  simpl. unfold OuterEnv_action_space. simpl. rewrite Hact. reflexivity.
Qed.


(** ** Rendering and closing *)

(** Windows are opened once: a second [render] in the same mode ends like
    the first, keeps the windows of the first, opens none and waits for
    none. *)
Theorem render_again (mode : string) (self : GymEnvironment)
    (viewers : Viewers) :
  let first := GymEnvironment_render mode self viewers in
  let second := GymEnvironment_render mode self (snd (fst first)) in
  fst (fst second) = fst (fst first)
  /\ snd (fst second) = snd (fst first)
  /\ forall event,
      event ∈ snd second -> (forall v, event <> Opened v) /\ event <> Slept.
Proof.
  unfold GymEnvironment_render.
  destruct
    (bool_decide (mode ∉ ["human"; "human_state"; "human_observation"])),
    (bool_decide (mode ∈ ["human"; "human_state"])),
    (bool_decide (mode ∈ ["human"; "human_observation"])),
    (state (inner_env (outer_env self))) as [current|];
    destruct viewers as [[sv|] [ov|]]; simpl;
    (split; [reflexivity|]); (split; [reflexivity|]);
    intros event Hin; (split; [intros v Heq | intros Heq]); subst event;
    repeat (apply elem_of_cons in Hin as [Hin|Hin]; [discriminate|]);
    inversion Hin.
Qed.

(** On an environment that is reset, each mode serves its own windows:
    "human_state" leaves the observation window alone and ends by drawing
    the current state in the state window, "human_observation" leaves the
    state window alone, and "human" leaves both windows open. *)
Theorem render_modes (self : GymEnvironment) (viewers : Viewers)
    (current : State) :
  state (inner_env (outer_env self)) = Some current ->
  (_observation_viewer
     (snd (fst (GymEnvironment_render "human_state" self viewers)))
   = _observation_viewer viewers
   /\ exists viewer events,
       _state_viewer
         (snd (fst (GymEnvironment_render "human_state" self viewers)))
       = Some viewer
       /\ snd (GymEnvironment_render "human_state" self viewers)
          = events ++ [RenderedState viewer current])
  /\ (_state_viewer
        (snd (fst (GymEnvironment_render "human_observation" self viewers)))
      = _state_viewer viewers
      /\ exists viewer events,
          _observation_viewer
            (snd (fst (GymEnvironment_render "human_observation" self
                         viewers)))
          = Some viewer
          /\ snd (GymEnvironment_render "human_observation" self viewers)
             = events
               ++ [RenderedObservation viewer
                     (observation (inner_env (outer_env self)))])
  /\ (is_Some (_state_viewer
                 (snd (fst (GymEnvironment_render "human" self viewers))))
      /\ is_Some (_observation_viewer
                    (snd (fst (GymEnvironment_render "human" self viewers))))).
Proof.
  intros Hstate. unfold GymEnvironment_render. rewrite Hstate.
  destruct viewers as [[sv|] [ov|]]; simpl;
    repeat split; eauto;
    first [ eexists _, []; split; reflexivity
          | eexists _, [_; _]; split; reflexivity ].
Qed.

(** [close] closes every open window once, the state window first, and
    leaves none; closing again does nothing. *)
Theorem close_closes (viewers : Viewers) :
  fst (GymEnvironment_close viewers) = mkViewers None None
  /\ snd (GymEnvironment_close viewers)
     = match _state_viewer viewers with
       | Some viewer => [Closed viewer]
       | None => []
       end
       ++ match _observation_viewer viewers with
          | Some viewer => [Closed viewer]
          | None => []
          end
  /\ GymEnvironment_close (fst (GymEnvironment_close viewers))
     = (mkViewers None None, []).
Proof.
  destruct viewers as [[sv|] [ov|]]; repeat split.
Qed.


End WrapperProperties.


(** ** Equality of observations, continued *)

(** Where [==] on grids and on agents holds exactly of equal values,
    [Observation.__eq__] holds exactly of equal observations. *)
Theorem Observation_eq_reflects (Grid Agent Other : Type)
    (Grid_eq : Grid -> Grid -> bool) (Agent_eq : Agent -> Agent -> bool)
    (a b : @observation_py.Observation Grid Agent) :
  (forall g1 g2, Grid_eq g1 g2 = true <-> g1 = g2) ->
  (forall a1 a2, Agent_eq a1 a2 = true <-> a1 = a2) ->
  observation_py.__eq__ (Other := Other) Grid_eq Agent_eq a
    (observation_py.AnObservation b) = observation_py.Truth true
  <-> a = b.
Proof.
  intros Hgrid Hagent. destruct a as [ga aa], b as [gb ab]. simpl.
  split.
  - intros [= H]. destruct (Grid_eq ga gb) eqn:Hg; [|discriminate].
    apply Hgrid in Hg. apply Hagent in H. congruence.
  - intros [= -> ->].
    rewrite (proj2 (Hgrid gb gb) eq_refl), (proj2 (Hagent ab ab) eq_refl).
    reflexivity.
Qed.

(** ** Reading an action from the user *)

(** [get_user_action] returns the action of the first line that reads as
    one: every line before it was rejected, the lines after it stay unread,
    and one prompt was written per line read. When no line reads as an
    action it ends in [EOFError], having prompted once more than there were
    lines. *)
Theorem get_user_action_first_valid {D : Domain} (int : string -> option Z)
    (Action_of_value : Z -> option Action) (stdin : list string) :
  match manual_control.get_user_action int Action_of_value stdin with
  | (manual_control.Chosen action, unread, prompts) =>
      exists rejected accepted,
        stdin = rejected ++ accepted :: unread
        /\ Forall (fun line =>
                     manual_control.read_action int Action_of_value line = None)
                  rejected
        /\ manual_control.read_action int Action_of_value accepted
           = Some action
        /\ prompts
           = replicate (S (length rejected)) manual_control.prompt
  | (manual_control.EOFError, unread, prompts) =>
      Forall (fun line =>
                manual_control.read_action int Action_of_value line = None)
             stdin
      /\ unread = []
      /\ prompts = replicate (S (length stdin)) manual_control.prompt
  end.
Proof.
  induction stdin as [|line stdin IH]; simpl.
  - repeat split. constructor.
  - destruct (manual_control.read_action int Action_of_value line)
      as [action|] eqn:Hline.
    + exists [], line. repeat split; [constructor | exact Hline].
    + destruct (manual_control.get_user_action int Action_of_value stdin)
        as [[[action|] unread] prompts].
      * destruct IH as (rejected & accepted & -> & Hrej & Hacc & ->).
        exists (line :: rejected), accepted. repeat split.
        -- constructor; assumption.
        -- exact Hacc.
      * destruct IH as (Hrej & -> & ->). repeat split.
        constructor; assumption.
Qed.

(** ** The helpers of the state tests *)

Lemma next_around (i size : Z) :
  (0 <= i < size)%Z ->
  (0 <= (i + 1) mod size < size)%Z
  /\ ((i + 1) mod size = i <-> size = 1)%Z.
Proof.
  intros Hi. split; [apply Z.mod_pos_bound; lia|].
  destruct (decide (i + 1 = size)%Z) as [Heq|Hne].
  - rewrite Heq, Z_mod_same_full. lia.
  - rewrite Z.mod_small by lia. lia.
Qed.

(** On a position that lies on the grid, [_change_agent_position] raises
    nothing, keeps the grid and puts the agent on the grid again; the state
    it returns differs from the one it got unless the grid is a single
    cell. *)
Theorem change_agent_position_moves (state : test_state.State) :
  test_state.on_grid state ->
  exists state',
    test_state._change_agent_position state = Some state'
    /\ test_state.on_grid state'
    /\ test_state.grid state' = test_state.grid state
    /\ (state' = state
        <-> test_state.height (test_state.grid state) = 1%Z
            /\ test_state.width (test_state.grid state) = 1%Z).
Proof.
  destruct state as [[h w] [[y x] o ob]].
  unfold test_state.on_grid, test_state._change_agent_position,
    test_state.py_mod. simpl. intros [Hy Hx].
  destruct (next_around y h Hy) as [Hy' Hyeq].
  destruct (next_around x w Hx) as [Hx' Hxeq].
  rewrite !decide_False by lia.
  eexists. split; [reflexivity|]. simpl.
  split; [split; assumption|]. split; [reflexivity|].
  split.
  - intros [= Hy1 Hx1]. split; [apply Hyeq, Hy1 | apply Hxeq, Hx1].
  - intros [Hh Hw]. apply Hyeq in Hh. apply Hxeq in Hw.
    rewrite Hh, Hw. reflexivity.
Qed.

(** [_change_agent_object] always changes the object the agent holds; a
    second call restores the state only when that object was no object or
    the red key. *)
Theorem change_agent_object_changes (state : test_state.State) :
  test_state.obj (test_state.agent (test_state._change_agent_object state))
  <> test_state.obj (test_state.agent state)
  /\ (test_state._change_agent_object (test_state._change_agent_object state)
      = state
      <-> test_state.obj (test_state.agent state) = test_state.NoneGridObject
          \/ test_state.obj (test_state.agent state)
             = test_state.Key RED).
Proof.
  destruct state as [g [p o ob]]. unfold test_state._change_agent_object.
  simpl. destruct ob as [| |c|]; simpl; (split; [discriminate|]);
    split; try discriminate; try (intros [H|H]; discriminate); auto.
  - intros [= <-]. auto.
  - intros [H|[= ->]]; [discriminate | reflexivity].
Qed.


(** * The theorems at work on the small domain *)

#[local] Existing Instance Toy.domain.
#[local] Existing Instance Toy.collaborators.

(** C1 on the two reward rules of the small domain, with the integers as
    numbers: the step backward from the start. *)
Lemma create_env_reward_additive_witness :
  (forall s0 a0 s1,
      reward_function Toy.ready_env s0 a0 s1
      = py_sum (map (fun r => r s0 a0 s1) Toy.rewards)
      /\ (exact_addition ->
          reward_function Toy.ready_env s0 a0 s1
          = arithmetic_sum (map (fun r => r s0 a0 s1) Toy.rewards)))
  /\ exists next_state reward done env' rng',
      InnerEnv_step Toy.ready_env Toy.Backward 1%nat
      = (inr (reward, done), env', rng')
      /\ (next_state, rng')
         = chain Toy.start_state Toy.Backward Toy.transitions 1%nat
      /\ state env' = Some next_state
      /\ reward
         = py_sum (map (fun r => r Toy.start_state Toy.Backward next_state)
                       Toy.rewards)
      /\ (exact_addition ->
          reward
          = arithmetic_sum
              (map (fun r => r Toy.start_state Toy.Backward next_state)
                   Toy.rewards))
      /\ (Toy.rewards = [] -> reward = 0%Z).
Proof.
  apply (create_env_reward_additive
           Toy.spaces (Toy.reset_at 7 7) Toy.transitions Toy.rewards
           Toy.terminations Toy.ready_env Toy.start_state Toy.Backward 1%nat).
  - repeat split.
  - reflexivity.
  - reflexivity.
Defined.

(** Addition of integers is exact. *)
Example integers_add_exactly : exact_addition (D := Toy.domain).
Proof.
  repeat split; simpl; intros.
  - apply Z.add_assoc.
  - apply Z.add_0_r.
Qed.

(** C2 on the two termination predicates of the small domain: the step
    forward from the start. *)
Lemma create_env_termination_any_witness :
  (forall s0 a0 s1,
      termination_function Toy.ready_env s0 a0 s1 = true
      <-> exists t, t ∈ Toy.terminations /\ t s0 a0 s1 = true)
  /\ exists next_state reward done env' rng',
      InnerEnv_step Toy.ready_env Toy.Forward 1%nat
      = (inr (reward, done), env', rng')
      /\ (next_state, rng')
         = chain Toy.start_state Toy.Forward Toy.transitions 1%nat
      /\ state env' = Some next_state
      /\ (done = true
          <-> exists t,
              t ∈ Toy.terminations
              /\ t Toy.start_state Toy.Forward next_state = true)
      /\ (Toy.terminations = [] -> done = false).
Proof.
  apply (create_env_termination_any (D := Toy.domain)
           (ext := Toy.collaborators)
           Toy.spaces (Toy.reset_at 7 7) Toy.transitions Toy.rewards
           Toy.terminations Toy.ready_env Toy.start_state Toy.Forward 1%nat).
  - repeat split.
  - reflexivity.
  - reflexivity.
Defined.

(** C3 on the environment with no transition rule. *)
Lemma empty_transitions_keep_state_witness :
  exists reward done env',
    InnerEnv_step Toy.still_env Toy.Forward 1%nat
    = (inr (reward, done), env', 1%nat)
    /\ state env' = state Toy.still_env.
Proof.
  apply (empty_transitions_keep_state (D := Toy.domain)
           (ext := Toy.collaborators)
           Toy.spaces (Toy.reset_at 7 7) Toy.rewards Toy.terminations
           Toy.still_env Toy.start_state Toy.Forward 1%nat).
  - repeat split.
  - reflexivity.
  - reflexivity.
Defined.

(** C4 on the wrapper of the empty room of size 5, as the registration loop
    of [gym.py] constructs it. *)
Lemma gym_action_encoding_witness :
  gym_action_space Toy.gym_env
  = Some (mkDiscrete
            (num_actions (OuterEnv_action_space (outer_env Toy.gym_env))))
  /\ (forall action : Z,
        Discrete_contains
          (mkDiscrete
             (num_actions (OuterEnv_action_space (outer_env Toy.gym_env))))
          action = true
        <-> exists action_,
            int_to_action (OuterEnv_action_space (outer_env Toy.gym_env))
                          action
            = inr action_)
  /\ (forall (action : Z) (action_ : Toy.ToyAction) (rng : nat),
        int_to_action (OuterEnv_action_space (outer_env Toy.gym_env)) action
        = inr action_ ->
        let outcome :=
          GymEnvironment_step (ext := Toy.collaborators) Toy.gym_env action
                              rng in
        let outer_outcome :=
          OuterEnv_step (outer_env Toy.gym_env) action_ rng in
        let inner_outcome :=
          InnerEnv_step (inner_env (outer_env Toy.gym_env)) action_ rng in
        actions (OuterEnv_action_space (outer_env Toy.gym_env))
          !! Z.to_nat action
        = Some action_
        /\ outcome = step_action Toy.gym_env action_ rng
        /\ outer_env (snd (fst outcome)) = snd (fst outer_outcome)
        /\ snd outcome = snd outer_outcome
        /\ fst (fst outcome)
           = match fst (fst outer_outcome) with
             | inl exn => inl exn
             | inr (reward, done) =>
                 match OuterEnv_observation (snd (fst outer_outcome)) with
                 | inl exn => inl exn
                 | inr obs => inr (obs, reward, done, ∅)
                 end
             end
        /\ fst (fst outer_outcome) = fst (fst inner_outcome)
        /\ inner_env (snd (fst outer_outcome)) = snd (fst inner_outcome)
        /\ snd outer_outcome = snd inner_outcome)
  /\ (forall (action : Z) (exn : Exception) (rng : nat),
        int_to_action (OuterEnv_action_space (outer_env Toy.gym_env)) action
        = inl exn ->
        GymEnvironment_step (ext := Toy.collaborators) Toy.gym_env action rng
        = (inl exn, Toy.gym_env, rng))
  /\ (forall (reset_func : @ResetFunction Toy.domain) (rng : nat),
        action_space
          (domain_space
             (fst (plain_navigation_task (ext := Toy.collaborators)
                     reset_func rng)))
        = mkActionSpace (D := Toy.domain) [Toy.Forward; Toy.Backward; Toy.Stay]).
Proof.
  apply (gym_action_encoding (D := Toy.domain) (ext := Toy.collaborators)
           (outer_env_constructor (env_empty 5 false)) None None
           0%nat 1%nat Toy.gym_env).
  reflexivity.
Defined.

(** C7 on the representation named "compact". *)
Lemma reinstall_observation_representation_witness :
  exists self2,
    set_observation_representation (ext := Toy.collaborators) "compact"
      (snd (set_observation_representation (ext := Toy.collaborators)
              "compact" Toy.gym_env))
    = (inr tt, self2)
    /\ gym_observation_space self2
       = gym_observation_space
           (snd (set_observation_representation (ext := Toy.collaborators)
                   "compact" Toy.gym_env))
    /\ self2
       = snd (set_observation_representation (ext := Toy.collaborators)
                "compact" Toy.gym_env).
Proof.
  apply (reinstall_observation_representation (D := Toy.domain)
           (ext := Toy.collaborators) "compact" Toy.gym_env).
  reflexivity.
Defined.

(** C9 as first stated, with the upper bound equal to the representation's
    array for every space, fails: the array "x" of [2**63] and 1 is
    advertised with the upper bound [-2**63] and 1. *)
Lemma upper_bound_wraps_around :
  exists box : Box,
    outer_space_to_gym_space Toy.wide_space !! "x" = Some box
    /\ Toy.wide_space !! "x"
       = Some (mk_ndarray [2%nat] [9223372036854775808%Z; 1%Z])
    /\ high box = mk_ndarray [2%nat] [(-9223372036854775808)%Z; 1%Z]
    /\ high box <> mk_ndarray [2%nat] [9223372036854775808%Z; 1%Z].
Proof.
  eexists. split; [reflexivity|]. split; [reflexivity|].
  split; [reflexivity | discriminate].
Qed.

(** ** The definitions evaluated *)

(** Stepping backward from position 0 leaves the line: no goal reward, the
    penalty of 2, and the episode is over. *)
Example step_backward_value :
  fst (fst (InnerEnv_step Toy.ready_env Toy.Backward 1%nat))
  = inr ((-2)%Z, true).
Proof. reflexivity. Qed.

(** Staying put earns nothing and ends nothing; the stochastic rule has
    drawn once. *)
Example step_stay_value :
  fst (fst (InnerEnv_step Toy.ready_env Toy.Stay 1%nat)) = inr (0%Z, false)
  /\ snd (InnerEnv_step Toy.ready_env Toy.Stay 1%nat) = 2%nat.
Proof. split; reflexivity. Qed.

(** A step before the first reset is a sequencing error. *)
Example step_before_reset :
  fst (fst (InnerEnv_step
              (create_env (ext := Toy.collaborators) Toy.spaces
                 (Toy.reset_at 7 7) Toy.transitions Toy.rewards
                 Toy.terminations)
              Toy.Stay 0%nat))
  = inl (SequencingError "reset required before step").
Proof. reflexivity. Qed.

(** The integer 1 is the second member of the action list; 3 and -1 are
    outside the range. *)
Example int_to_action_values :
  int_to_action (OuterEnv_action_space (outer_env Toy.gym_env)) 1
  = inr Toy.Backward
  /\ int_to_action (OuterEnv_action_space (outer_env Toy.gym_env)) 3
     = inl (ValidationError "action 3 is outside [0, 3)")
  /\ int_to_action (OuterEnv_action_space (outer_env Toy.gym_env)) (-1)
     = inl (ValidationError "action -1 is outside [0, 3)").
Proof. repeat split. Qed.

(** An unknown name, and a known one. *)
Example env_from_descr_values :
  env_from_descr (ext := Toy.collaborators) "Empty-7x7-v0" 0%nat
  = (inl (ValueError "No environment named Empty-7x7-v0 is implemented"),
     0%nat)
  /\ exists env,
      env_from_descr (ext := Toy.collaborators) "KeyDoor-8x8-v0" 0%nat
      = (inr env, 1%nat)
      /\ grid_shape (state_space (domain_space env)) = mkShape 10 10.
Proof. split; [reflexivity|]. eexists. split; reflexivity. Qed.

(** The generator of the small domain counts the draws: each builder has
    drawn once when it returns, and the shape it read is the one of the
    size it was given plus the walls. *)
Example builders_draw_once :
  snd (plain_navigation_task (Toy.reset_at 4 6) 0%nat) = 1%nat
  /\ snd (env_dynamic_obstacle 5 true 2 0%nat) = 1%nat
  /\ snd (gym_keydoor_env 16 0%nat) = 1%nat
  /\ grid_shape
       (state_space
          (domain_space (fst (plain_navigation_task (Toy.reset_at 4 6) 0%nat))))
     = mkShape 4 6
  /\ grid_shape (state_space (domain_space (fst (gym_keydoor_env 16 0%nat))))
     = mkShape 18 18.
Proof. repeat split. Qed.

(** [__init__] on the registered constructor of the empty room. *)
Example GymEnvironment_init_value :
  GymEnvironment_init (outer_env_constructor (env_empty 5 false)) None None
                      0%nat
  = (inr Toy.gym_env, 1%nat)
  /\ from_environment Toy.empty_room 1%nat = (inr Toy.gym_env, 1%nat).
Proof. split; reflexivity. Qed.

(** The box advertised for the array "grid" of a 7 by 7 space. *)
Example grid_box_advertised :
  outer_space_to_gym_space (Toy.rep_space (mkShape 7 7)) !! "grid"
  = Some Toy.grid_box.
Proof. reflexivity. Qed.

(** A space that does not fit [np.int]: its box holds no point although no
    bound is negative, and it is advertised like a different space. *)
Example wide_space_advertised :
  (forall name v, Toy.wide_space !! name = Some v -> nonnegative v)
  /\ (exists box,
        outer_space_to_gym_space Toy.wide_space !! "x" = Some box
        /\ ~ box_inhabited box)
  /\ outer_space_to_gym_space Toy.wide_space
     = outer_space_to_gym_space Toy.low_space
  /\ Toy.wide_space <> Toy.low_space.
Proof.
  split; [|split; [|split]].
  - intros name v Hv. unfold Toy.wide_space in Hv.
    apply lookup_singleton_Some in Hv as [_ <-].
    unfold nonnegative. simpl. repeat constructor; lia.
  - eexists. split; [reflexivity|]. unfold box_inhabited. simpl.
    intros H. apply Forall2_cons in H as [H _]. vm_compute in H.
    apply H. reflexivity.
  - reflexivity.
  - intros H. apply (f_equal (fun m : gmap string ndarray => m !! "x")) in H.
    vm_compute in H. discriminate.
Qed.

(** An unknown representation name raises and changes nothing. *)
Example set_unknown_representation :
  set_state_representation (ext := Toy.collaborators) "no-such" Toy.gym_env
  = (inl (ValueError "unknown representation no-such"), Toy.gym_env).
Proof. reflexivity. Qed.

(** Two values of [__eq__]. *)
Example Observation_eq_values :
  observation_py.__eq__ (Other := string) Z.eqb Z.eqb
    (observation_py.mkObservation 1%Z 2%Z)
    (observation_py.AnObservation (observation_py.mkObservation 1%Z 3%Z))
  = observation_py.Truth false
  /\ observation_py.__eq__ Z.eqb Z.eqb
       (observation_py.mkObservation 1%Z 2%Z)
       (observation_py.AnotherObject "an observation"%string)
     = observation_py.NotImplemented.
Proof. split; reflexivity. Qed.

(** * The further properties at work on the small domain *)

(** The two reward rules of the small domain, one list each, on the step
    backward. *)
Lemma create_env_reward_app_witness :
  reward_function
    (create_env Toy.spaces (Toy.reset_at 7 7) Toy.transitions
                ([Toy.goal_reward] ++ [Toy.off_line_penalty])
                Toy.terminations)
    Toy.start_state Toy.Backward Toy.left_state
  = (reward_function
       (create_env Toy.spaces (Toy.reset_at 7 7) Toy.transitions
                   [Toy.goal_reward] Toy.terminations)
       Toy.start_state Toy.Backward Toy.left_state
     + reward_function
         (create_env Toy.spaces (Toy.reset_at 7 7) Toy.transitions
                     [Toy.off_line_penalty] Toy.terminations)
         Toy.start_state Toy.Backward Toy.left_state)%Z.
Proof.
  apply (create_env_reward_app (D := Toy.domain) (ext := Toy.collaborators)
           Toy.spaces (Toy.reset_at 7 7) Toy.transitions
           [Toy.goal_reward] [Toy.off_line_penalty] Toy.terminations
           Toy.start_state Toy.Backward Toy.left_state).
  repeat split; simpl; intros.
  - apply Z.add_assoc.
  - apply Z.add_0_r.
Defined.

(** The two reward rules of the small domain in either order. *)
Lemma create_env_reward_order_witness :
  reward_function
    (create_env Toy.spaces (Toy.reset_at 7 7) Toy.transitions
                [Toy.goal_reward; Toy.off_line_penalty] Toy.terminations)
    Toy.start_state Toy.Backward Toy.left_state
  = reward_function
      (create_env Toy.spaces (Toy.reset_at 7 7) Toy.transitions
                  [Toy.off_line_penalty; Toy.goal_reward] Toy.terminations)
      Toy.start_state Toy.Backward Toy.left_state.
Proof.
  apply (create_env_reward_order (D := Toy.domain) (ext := Toy.collaborators)
           Toy.spaces (Toy.reset_at 7 7) Toy.transitions
           [Toy.goal_reward; Toy.off_line_penalty]
           [Toy.off_line_penalty; Toy.goal_reward] Toy.terminations
           Toy.start_state Toy.Backward Toy.left_state).
  - repeat split; simpl; intros.
    + apply Z.add_assoc.
    + apply Z.add_0_r.
  - simpl. intros. apply Z.add_comm.
  - apply perm_swap.
Defined.

(** The two predicates of the small domain, and the same two in the other
    order with one of them twice. *)
Lemma create_env_termination_members_witness :
  termination_function
    (create_env Toy.spaces (Toy.reset_at 7 7) Toy.transitions Toy.rewards
                [Toy.at_goal; Toy.off_line])
    Toy.start_state Toy.Backward Toy.left_state
  = termination_function
      (create_env Toy.spaces (Toy.reset_at 7 7) Toy.transitions Toy.rewards
                  [Toy.off_line; Toy.at_goal; Toy.at_goal])
      Toy.start_state Toy.Backward Toy.left_state.
Proof.
  apply (create_env_termination_members (D := Toy.domain)
           (ext := Toy.collaborators)
           Toy.spaces (Toy.reset_at 7 7) Toy.transitions Toy.rewards
           [Toy.at_goal; Toy.off_line]
           [Toy.off_line; Toy.at_goal; Toy.at_goal]
           Toy.start_state Toy.Backward Toy.left_state).
  intros t. rewrite !elem_of_cons, !elem_of_nil. tauto.
Defined.

(** The four rooms under their name. *)
Lemma env_from_descr_registered_witness :
  env_from_descr (ext := Toy.collaborators) "FourRooms-v0" 0%nat
  = (inr (fst (Toy.four_rooms 0%nat)), snd (Toy.four_rooms 0%nat)).
Proof.
  apply (env_from_descr_registered (D := Toy.domain)
           (ext := Toy.collaborators) "FourRooms-v0" env_four_room 0%nat).
  apply (list_elem_of_lookup_2 _ 6%nat). reflexivity.
Defined.

(** The key-door environment of size 8. *)
Lemma env_from_descr_fresh_witness :
  obs_grid_shape
       (observation_space (domain_space (fst (Toy.keydoor8 0%nat))))
     = mkShape 7 7
  /\ action_space (domain_space (fst (Toy.keydoor8 0%nat)))
     = mkActionSpace list_Action
  /\ 1%nat = snd (reset_function (fst (Toy.keydoor8 0%nat)) 0%nat)
  /\ grid_shape (state_space (domain_space (fst (Toy.keydoor8 0%nat))))
     = shape (grid (fst (reset_function (fst (Toy.keydoor8 0%nat))
                           0%nat))).
Proof.
  apply (env_from_descr_fresh (D := Toy.domain) (ext := Toy.collaborators)
           "KeyDoor-8x8-v0" 0%nat 1%nat (fst (Toy.keydoor8 0%nat))).
  reflexivity.
Defined.

(** The dynamic-obstacle environment of size 5 on the step backward. *)
Lemma env_from_descr_ends_witness :
  (terminating_functions_reach_goal Toy.start_state Toy.Backward
     Toy.left_state = true ->
   termination_function (fst (Toy.obstacles5 0%nat))
     Toy.start_state Toy.Backward Toy.left_state = true)
  /\ (termination_function (fst (Toy.obstacles5 0%nat))
        Toy.start_state Toy.Backward Toy.left_state = true ->
      terminating_functions_reach_goal Toy.start_state Toy.Backward
        Toy.left_state = true
      \/ terminating_functions_bump_moving_obstacle Toy.start_state
           Toy.Backward Toy.left_state = true
      \/ terminating_functions_bump_into_wall Toy.start_state Toy.Backward
           Toy.left_state = true).
Proof.
  apply (env_from_descr_ends (D := Toy.domain) (ext := Toy.collaborators)
           "Dynamic-Obstacles-5x5-v0" 0%nat 1%nat
           (fst (Toy.obstacles5 0%nat))
           Toy.start_state Toy.Backward Toy.left_state).
  reflexivity.
Defined.

(** The wrapper of the empty room, as [__init__] returns it. *)
Lemma GymEnvironment_init_consistent_witness :
  advertised_consistent Toy.gym_env.
Proof.
  apply (GymEnvironment_init_consistent (D := Toy.domain)
           (ext := Toy.collaborators)
           (outer_env_constructor (env_empty 5 false)) None None
           0%nat 1%nat Toy.gym_env).
  reflexivity.
Defined.

(** The same wrapper after either setter, on a name the registry knows. *)
Lemma setters_keep_consistent_witness :
  advertised_consistent
    (snd (set_state_representation (ext := Toy.collaborators) "compact"
            Toy.gym_env))
  /\ advertised_consistent
       (snd (set_observation_representation (ext := Toy.collaborators)
               "compact" Toy.gym_env)).
Proof.
  apply (setters_keep_consistent (D := Toy.domain) (ext := Toy.collaborators)
           "compact" Toy.gym_env).
  split; reflexivity.
Defined.

(** The empty room with a state override the registry knows and an
    observation override it does not know. *)
Lemma GymEnvironment_init_overrides_witness :
  GymEnvironment_init (ext := Toy.collaborators)
    (outer_env_constructor (env_empty 5 false))
    (Some "compact"%string) (Some "no-such"%string) 0%nat
  = (install_overrides (Some "compact"%string) (Some "no-such"%string)
       Toy.gym_env,
     1%nat).
Proof.
  apply (GymEnvironment_init_overrides (D := Toy.domain)
           (ext := Toy.collaborators)
           (outer_env_constructor (env_empty 5 false))
           (Some "compact"%string) (Some "no-such"%string)
           0%nat 1%nat Toy.gym_env).
  reflexivity.
Defined.

(** The registered constructor of the four rooms. *)
Lemma registered_wrapper_witness :
  match create_observation_representation (Collaborators := Toy.collaborators)
          "default"
          (observation_space
             (domain_space
                (fst (Toy.four_rooms 0%nat)))) with
  | inr rep =>
      GymEnvironment_init (outer_env_constructor env_four_room) None None
                          0%nat
      = (inr (mkGymEnvironment
                (mkOuterEnv
                   (fst (Toy.four_rooms 0%nat))
                   None (Some rep))
                None
                (Some (outer_space_to_gym_space (observation_rep_space rep)))
                (Some (mkDiscrete (num_actions (mkActionSpace list_Action))))),
         snd (reset_function
                (fst (Toy.four_rooms 0%nat))
                0%nat))
  | inl exn =>
      GymEnvironment_init (outer_env_constructor env_four_room) None None
                          0%nat
      = (inl exn,
         snd (reset_function
                (fst (Toy.four_rooms 0%nat))
                0%nat))
  end.
Proof.
  apply (registered_wrapper (D := Toy.domain) (ext := Toy.collaborators)
           env_four_room 0%nat).
  apply (plain_navigation_task_fresh (reset_rooms 19 19 (2, 2)%Z)).
Defined.

(** The wrapper of the empty room after a reset, with no window open. *)
Lemma render_modes_witness :
  (_observation_viewer
     (snd (fst (GymEnvironment_render "human_state" Toy.gym_ready
                  Toy.no_viewers)))
   = _observation_viewer Toy.no_viewers
   /\ exists viewer events,
       _state_viewer
         (snd (fst (GymEnvironment_render "human_state" Toy.gym_ready
                      Toy.no_viewers)))
       = Some viewer
       /\ snd (GymEnvironment_render "human_state" Toy.gym_ready
                 Toy.no_viewers)
          = events ++ [RenderedState viewer Toy.start_state])
  /\ (_state_viewer
        (snd (fst (GymEnvironment_render "human_observation" Toy.gym_ready
                     Toy.no_viewers)))
      = _state_viewer Toy.no_viewers
      /\ exists viewer events,
          _observation_viewer
            (snd (fst (GymEnvironment_render "human_observation"
                         Toy.gym_ready Toy.no_viewers)))
          = Some viewer
          /\ snd (GymEnvironment_render "human_observation" Toy.gym_ready
                    Toy.no_viewers)
             = events
               ++ [RenderedObservation viewer
                     (observation (inner_env (outer_env Toy.gym_ready)))])
  /\ (is_Some (_state_viewer
                 (snd (fst (GymEnvironment_render "human" Toy.gym_ready
                              Toy.no_viewers))))
      /\ is_Some (_observation_viewer
                    (snd (fst (GymEnvironment_render "human" Toy.gym_ready
                                 Toy.no_viewers))))).
Proof.
  apply (render_modes (D := Toy.domain)
           Toy.gym_ready Toy.no_viewers Toy.start_state).
  reflexivity.
Defined.

(** Observations of two integers, compared with [Z.eqb]. *)
Lemma Observation_eq_reflects_witness :
  observation_py.__eq__ (Other := string) Z.eqb Z.eqb
    (observation_py.mkObservation 1%Z 2%Z)
    (observation_py.AnObservation (observation_py.mkObservation 1%Z 3%Z))
  = observation_py.Truth true
  <-> observation_py.mkObservation 1%Z 2%Z
      = observation_py.mkObservation 1%Z 3%Z.
Proof.
  apply (Observation_eq_reflects Z Z string Z.eqb Z.eqb
           (observation_py.mkObservation 1%Z 2%Z)
           (observation_py.mkObservation 1%Z 3%Z)).
  - apply Z.eqb_eq.
  - apply Z.eqb_eq.
Defined.

(** The first state of the tests. *)
Lemma change_agent_position_moves_witness :
  exists state',
    test_state._change_agent_position Toy.corner_state = Some state'
    /\ test_state.on_grid state'
    /\ test_state.grid state' = test_state.grid Toy.corner_state
    /\ (state' = Toy.corner_state
        <-> test_state.height (test_state.grid Toy.corner_state) = 1%Z
            /\ test_state.width (test_state.grid Toy.corner_state) = 1%Z).
Proof.
  apply (change_agent_position_moves Toy.corner_state).
  unfold test_state.on_grid. simpl. lia.
Defined.


(** The same space: its box holds a point, its bounds are not negative. *)
Lemma outer_space_to_gym_space_inhabited_witness :
  (forall name box,
      outer_space_to_gym_space (Toy.rep_space (mkShape 7 7)) !! name
      = Some box ->
      box_inhabited box)
  <-> (forall name v,
          Toy.rep_space (mkShape 7 7) !! name = Some v -> nonnegative v).
Proof.
  apply (outer_space_to_gym_space_inhabited (Toy.rep_space (mkShape 7 7))).
  intros name v Hv. unfold Toy.rep_space in Hv.
  apply lookup_singleton_Some in Hv as [_ <-].
  unfold fits_np_int. simpl. repeat constructor; lia.
Defined.

(** ** More definitions evaluated *)

(** The ids the registration loop leaves in [env_ids]. *)
Example env_ids_value :
  env_ids (ext := Toy.collaborators)
  = [ "GridVerse-Empty-5x5-v0"; "GridVerse-Empty-Random-5x5-v0";
      "GridVerse-Empty-6x6-v0"; "GridVerse-Empty-Random-6x6-v0";
      "GridVerse-Empty-8x8-v0"; "GridVerse-Empty-16x16-v0";
      "GridVerse-FourRooms-v0"; "GridVerse-Dynamic-Obstacles-5x5-v0";
      "GridVerse-Dynamic-Obstacles-Random-5x5-v0";
      "GridVerse-Dynamic-Obstacles-6x6-v0";
      "GridVerse-Dynamic-Obstacles-Random-6x6-v0";
      "GridVerse-Dynamic-Obstacles-8x8-v0";
      "GridVerse-Dynamic-Obstacles-16x16-v0"; "GridVerse-KeyDoor-5x5-v0";
      "GridVerse-KeyDoor-6x6-v0"; "GridVerse-KeyDoor-8x8-v0";
      "GridVerse-KeyDoor-16x16-v0" ].
Proof. reflexivity. Qed.

(** The first [render] of a reset environment opens both windows, waits
    after each, and draws; [close] then closes both. *)
Example render_then_close :
  snd (GymEnvironment_render "human" Toy.gym_ready Toy.no_viewers)
  = [ Opened (mkViewer (mkShape 7 7) "State"); Slept;
      RenderedState (mkViewer (mkShape 7 7) "State") Toy.start_state;
      Opened (mkViewer (mkShape 7 7) "Observation"); Slept;
      RenderedObservation (mkViewer (mkShape 7 7) "Observation") (Some 0%Z) ]
  /\ snd (GymEnvironment_close
            (snd (fst (GymEnvironment_render "human" Toy.gym_ready
                         Toy.no_viewers))))
     = [ Closed (mkViewer (mkShape 7 7) "State");
         Closed (mkViewer (mkShape 7 7) "Observation") ].
Proof. split; reflexivity. Qed.

(** Two lines that are no action, then one that is: the third line is
    taken, the fourth stays unread, three prompts were written. *)
Example get_user_action_value :
  manual_control.get_user_action (D := Toy.domain)
    (fun line => if decide (line = "1") then Some 1%Z
                 else if decide (line = "7") then Some 7%Z else None)
    (fun value => if decide (value = 1%Z) then Some Toy.Backward else None)
    ["go"; "7"; "1"; "0"]
  = (manual_control.Chosen Toy.Backward, ["0"],
     replicate 3 "Action? (in (0,3)): ").
Proof. reflexivity. Qed.

(** On a grid of one cell the helper returns the state it got; with a zero
    height the remainder raises. *)
Example change_agent_position_edges :
  test_state._change_agent_position
    (test_state.mkState (test_state.mkGrid 1 1)
       (test_state.mkAgent (test_state.mkPosition 0 0) test_state.S
                           (test_state.Key RED)))
  = Some (test_state.mkState (test_state.mkGrid 1 1)
            (test_state.mkAgent (test_state.mkPosition 0 0) test_state.S
                                (test_state.Key RED)))
  /\ test_state._change_agent_position
       (test_state.mkState (test_state.mkGrid 0 3)
          (test_state.mkAgent (test_state.mkPosition 0 0) test_state.N
                              test_state.NoneGridObject))
     = None.
Proof. split; reflexivity. Qed.
